(** * ecommerce_chatbot: the question -> SQL -> result set -> presentation pipeline

    A shallow embedding of [src/chatbot.py]: the query synthesizer
    ([question_to_sql]), the query executor ([execute_sql]), the presenter
    ([plot_if_possible], [DataFrame.to_dict], [DataFrame.to_string]) and the
    HTTP handler ([api_ask]), followed by the properties the specification
    states about them.

    Python values are modelled as the interpreter has them: a [str] is a
    sequence of Unicode code points, exceptions are explicit outcomes, and the
    two external collaborators (the remote text generator and the SQLite
    connection) are parameters that thread an opaque world. What the
    libraries decide and the code only passes on (how floats are written,
    whether the renderer accepts a figure, which floats JSON can carry) is
    gathered in two classes of parameters. *)

From Stdlib Require Import ZArith NArith QArith Ascii String DecimalString.
From stdpp Require Import base list strings gmap.

Set Default Proof Using "Type".
Local Open Scope N_scope.
Local Open Scope list_scope.

(** ** Python strings *)

Module Py.

(** A [str] is a sequence of code points. *)
Definition str := list N.

(** An ASCII literal. *)
Definition lit (s : string) : str :=
  map N_of_ascii (list_ascii_of_string s).

Definition nl : str := [10].
Definition quote : str := [34].

(** [str.isspace] for one code point (CPython's [_PyUnicode_IsWhitespace]). *)
Definition isspace (c : N) : bool :=
  ((9 <=? c) && (c <=? 13)) || ((28 <=? c) && (c <=? 32))
  || (c =? 133) || (c =? 160) || (c =? 5760)
  || ((8192 <=? c) && (c <=? 8202))
  || (c =? 8232) || (c =? 8233) || (c =? 8239) || (c =? 8287)
  || (c =? 12288).

(** The line boundaries of [str.splitlines]. *)
Definition islinebreak (c : N) : bool :=
  ((10 <=? c) && (c <=? 13)) || ((28 <=? c) && (c <=? 30))
  || (c =? 133) || (c =? 8232) || (c =? 8233).

Fixpoint lstrip (s : str) : str :=
  match s with
  | [] => []
  | c :: r => if isspace c then lstrip r else s
  end.

Fixpoint rstrip (s : str) : str :=
  match s with
  | [] => []
  | c :: r =>
      match rstrip r with
      | [] => if isspace c then [] else [c]
      | r' => c :: r'
      end
  end.

(** [s.strip()] *)
Definition strip (s : str) : str := rstrip (lstrip s).

(** [s.startswith(p)] *)
Fixpoint startswith (p s : str) : bool :=
  match p, s with
  | [], _ => true
  | _ :: _, [] => false
  | a :: p', c :: s' => (a =? c) && startswith p' s'
  end.

(** [s.splitlines()]: [cur] is the line being read, reversed. A carriage
    return directly followed by a line feed is one boundary; a last line
    without terminator is kept when it is not empty. *)
Fixpoint splitlines_from (cur : str) (s : str) : list str :=
  match s with
  | [] => match cur with [] => [] | _ => [rev cur] end
  | c :: r =>
      if c =? 13 then
        match r with
        | 10 :: r' => rev cur :: splitlines_from [] r'
        | _ => rev cur :: splitlines_from [] r
        end
      else if islinebreak c then rev cur :: splitlines_from [] r
      else splitlines_from (c :: cur) r
  end.

Definition splitlines (s : str) : list str := splitlines_from [] s.

(** [sep.join(parts)] *)
Fixpoint join (sep : str) (parts : list str) : str :=
  match parts with
  | [] => []
  | [p] => p
  | p :: ps => p ++ sep ++ join sep ps
  end.

(** [str(z)] for an [int]. *)
Definition str_of_int (z : Z) : str :=
  lit (NilZero.string_of_int (Z.to_int z)).

(** A continuation byte of UTF-8. *)
Definition is_cont (b : N) : bool := (128 <=? b) && (b <=? 191).

(** [b.decode()]: the code points the bytes encode in UTF-8, or nothing when
    they are not valid UTF-8 (a stray or missing continuation byte, an
    overlong form, a surrogate, a code point above 0x10FFFF). *)
Fixpoint decode_utf8 (bytes : list N) : option str :=
  match bytes with
  | [] => Some []
  | b0 :: r0 =>
      if b0 <? 128 then option_map (cons b0) (decode_utf8 r0)
      else if (194 <=? b0) && (b0 <=? 223) then
        match r0 with
        | b1 :: r1 =>
            if is_cont b1
            then option_map (cons ((b0 - 192) * 64 + (b1 - 128))) (decode_utf8 r1)
            else None
        | _ => None
        end
      else if (224 <=? b0) && (b0 <=? 239) then
        match r0 with
        | b1 :: b2 :: r2 =>
            if is_cont b1 && is_cont b2
               && (if b0 =? 224 then 160 <=? b1 else true)
               && (if b0 =? 237 then b1 <=? 159 else true)
            then option_map
                   (cons ((b0 - 224) * 4096 + (b1 - 128) * 64 + (b2 - 128)))
                   (decode_utf8 r2)
            else None
        | _ => None
        end
      else if (240 <=? b0) && (b0 <=? 244) then
        match r0 with
        | b1 :: b2 :: b3 :: r3 =>
            if is_cont b1 && is_cont b2 && is_cont b3
               && (if b0 =? 240 then 144 <=? b1 else true)
               && (if b0 =? 244 then b1 <=? 143 else true)
            then option_map
                   (cons ((b0 - 240) * 262144 + (b1 - 128) * 4096
                          + (b2 - 128) * 64 + (b3 - 128)))
                   (decode_utf8 r3)
            else None
        | _ => None
        end
      else None
  end.

End Py.

(** ** Exceptions and the state-and-exception monad *)

(** An exception: its class name and [str(e)]. Every exception of this model
    derives from [Exception]; asynchronous [BaseException]s (keyboard
    interrupt, interpreter exit) are outside it. *)
Record exn := Exn { exn_class : string; exn_msg : Py.str }.

Inductive outcome (A : Type) : Type :=
| Ok (a : A)
| Raise (e : exn).
Arguments Ok {A} a.
Arguments Raise {A} e.

(** A computation over a state [S] that returns or raises; the state reached
    when an exception is raised is kept. *)
Definition M (S A : Type) : Type := S -> outcome A * S.

Global Instance M_ret {S} : MRet (M S) := fun A a s => (Ok a, s).
Global Instance M_bind {S} : MBind (M S) :=
  fun A B k m s => match m s with
                   | (Ok a, s') => k a s'
                   | (Raise e, s') => (Raise e, s')
                   end.
(** [try: m  except Exception as e: h e] *)
Definition try_except {S A} (m : M S A) (h : exn -> M S A) : M S A :=
  fun s => match m s with
           | (Ok a, s') => (Ok a, s')
           | (Raise e, s') => h e s'
           end.
(** A step that does not touch the state. *)
Definition lift {S A} (o : outcome A) : M S A := fun s => (o, s).

(** [[f(x) for x in xs]]: the first exception ends the loop. *)
Fixpoint traverse {A B} (f : A -> outcome B) (xs : list A) : outcome (list B) :=
  match xs with
  | [] => Ok []
  | x :: r =>
      match f x with
      | Raise e => Raise e
      | Ok y =>
          match traverse f r with
          | Raise e => Raise e
          | Ok ys => Ok (y :: ys)
          end
      end
  end.

(** The same loop over steps that act on a state. *)
Fixpoint for_each {S A B} (f : A -> M S B) (xs : list A) : M S (list B) :=
  match xs with
  | [] => mret []
  | x :: r =>
      y ← f x;
      ys ← for_each f r;
      mret (y :: ys)
  end.

(** ** The query synthesizer *)

Definition ticks : Py.str := Py.lit "```".

(** Lines 60-63 of [question_to_sql]: the text of the response, trimmed; when
    it begins with the fence marker, every line whose trimmed form begins
    with the marker is dropped; the result is trimmed again. *)
Definition sql_of_response_text (text : Py.str) : Py.str :=
  let sql := Py.strip text in
  let sql :=
    if Py.startswith ticks sql
    then Py.join Py.nl
           (filter (fun line => Py.startswith ticks (Py.strip line) = false)
                   (Py.splitlines sql))
    else sql in
  Py.strip sql.

(** The prompt of lines 27-58: a fixed schema description around the question. *)
Definition full_prompt (prompt : Py.str) : Py.str :=
  Py.join Py.nl
    (map Py.lit
       [ ""; "You are a helpful assistant that generates SQL queries for an SQLite database.";
         ""; "Here is the database schema:";
         ""; "Table: AdSales"; "- date"; "- item_id"; "- ad_sales"; "- impressions";
         "- ad_spend"; "- clicks"; "- units_sold";
         ""; "Table: TotalSales"; "- date"; "- item_id"; "- total_sales";
         "- total_units_ordered";
         ""; "Table: Eligibility"; "- eligibility_datetime_utc"; "- item_id";
         "- eligibility"; "- message"; "" ]%string
     ++ [ Py.lit "Question: " ++ Py.quote ++ prompt ++ Py.quote ]
     ++ map Py.lit
       [ ""; "Write a syntactically correct SQL query using only the columns above.";
         "Only return the raw SQL query.";
         "Do NOT use triple backticks or markdown formatting."; "" ]%string).

Section Synthesizer.
(** The remote text generator: [model.generate_content] acts on the world
    and returns a response or raises; reading [response.text] may raise
    too (a response without usable parts). *)
Context {world response : Type}.
Variable generate_content : Py.str -> M world response.
Variable response_text : response -> outcome Py.str.

Definition question_to_sql (prompt : Py.str) : M world Py.str :=
  response ← generate_content (full_prompt prompt);
  text ← lift (response_text response);
  mret (sql_of_response_text text).

End Synthesizer.


(** ** Values, columns and frames (sqlite3 rows, pandas frames) *)

(** What the interpreter and pandas do with floating-point numbers and with
    byte strings is kept abstract: the code never computes with a number, it
    only classifies, converts and prints them. *)
Class Runtime := {
  float : Type;
  (** [float(z)] and the not-a-number value pandas stores for a missing number *)
  float_of_int : Z -> float;
  nan : float;
  (** [str(x)] of a float, [str(b)] of a [bytes] *)
  str_of_float : float -> Py.str;
  str_of_bytes : list N -> Py.str;
  (** the texts [to_string] prints for the cells of a float64 column (one text
      per cell), and for a float met in a column of objects *)
  format_float_column : list float -> list Py.str;
  format_float_column_length :
    forall xs, length (format_float_column xs) = length xs;
  format_float_object : float -> Py.str
}.

Section Frames.
Context `{Runtime}.

(** A value of a row fetched by [sqlite3]: [None], an [int] (a signed 64-bit
    INTEGER), a [float], a [str] or a [bytes]. *)
Inductive value :=
| VNone
| VInt (z : Z)
| VFloat (x : float)
| VStr (s : Py.str)
| VBytes (b : list N).

(** [str(v)] *)
Definition py_str (v : value) : Py.str :=
  match v with
  | VNone => Py.lit "None"
  | VInt z => Py.str_of_int z
  | VFloat x => str_of_float x
  | VStr s => s
  | VBytes b => str_of_bytes b
  end.

(** A pandas column carries its dtype: 64-bit integers, 64-bit floats, or
    Python objects. *)
Inductive Series :=
| Int64 (xs : list Z)
| Float64 (xs : list float)
| Object (xs : list value).

Definition series_cells (s : Series) : list value :=
  match s with
  | Int64 xs => map VInt xs
  | Float64 xs => map VFloat xs
  | Object xs => xs
  end.

Definition series_len (s : Series) : nat := length (series_cells s).

(** [pd.api.types.is_numeric_dtype] of a column *)
Definition numeric_series (s : Series) : bool :=
  match s with
  | Int64 _ | Float64 _ => true
  | Object _ => false
  end.

Definition is_text (v : value) : bool :=
  match v with VStr _ | VBytes _ => true | _ => false end.
Definition is_float (v : value) : bool :=
  match v with VFloat _ => true | _ => false end.
Definition is_int (v : value) : bool :=
  match v with VInt _ => true | _ => false end.
Definition is_none (v : value) : bool :=
  match v with VNone => true | _ => false end.

Definition to_float (v : value) : float :=
  match v with
  | VInt z => float_of_int z
  | VFloat x => x
  | _ => nan
  end.
Definition to_int (v : value) : Z :=
  match v with VInt z => z | _ => 0%Z end.

(** The dtype pandas infers for a column of fetched values: text anywhere
    keeps the objects; otherwise numbers become float64 when a float or a
    [None] is among them and int64 when all are ints; a column with no number
    (empty, or all [None]) keeps the objects. *)
Definition column_of_objects (vs : list value) : Series :=
  if existsb is_text vs then Object vs
  else if existsb is_float vs then Float64 (map to_float vs)
  else if existsb is_int vs then
    if existsb is_none vs then Float64 (map to_float vs)
    else Int64 (map to_int vs)
  else Object vs.

Record DataFrame := {
  df_columns : list Py.str;
  df_data : list Series;
  df_nrows : nat
}.

(** [df.shape[1]] and [df.empty] *)
Definition df_ncols (df : DataFrame) : nat := length (df_columns df).
Definition df_empty (df : DataFrame) : bool :=
  (df_nrows df =? 0)%nat || (df_ncols df =? 0)%nat.

(** The width of the longest row. *)
Definition rows_width (rows : list (list value)) : nat :=
  foldr (fun r w => Nat.max (length r) w) 0%nat rows.

(** [pd.DataFrame(rows, columns=columns)] for a list of row tuples: the rows
    are laid out on the width of the longest one (missing fields are [None]),
    that width must be the number of column names, and each column gets its
    inferred dtype. Without rows the frame has the columns and no data. *)
Definition DataFrame_new (rows : list (list value)) (columns : list Py.str)
  : outcome DataFrame :=
  match rows with
  | [] =>
      Ok {| df_columns := columns;
            df_data := map (fun _ => Object []) columns;
            df_nrows := 0 |}
  | _ :: _ =>
      if (rows_width rows =? length columns)%nat then
        Ok {| df_columns := columns;
              df_data :=
                map (fun j => column_of_objects
                                (map (fun r => default VNone (r !! j)) rows))
                    (seq 0 (length columns));
              df_nrows := length rows |}
      else
        Raise (Exn "ValueError"
                 (Py.str_of_int (Z.of_nat (length columns))
                  ++ Py.lit " columns passed, passed data had "
                  ++ Py.str_of_int (Z.of_nat (rows_width rows))
                  ++ Py.lit " columns"))
  end.

(** What a frame built by [DataFrame_new] always satisfies: one column of
    data per name, every column as long as the frame, and no numeric column
    in a frame without rows. *)
Definition frame_ok (df : DataFrame) : bool :=
  (length (df_data df) =? length (df_columns df))%nat
  && forallb (fun s => (series_len s =? df_nrows df)%nat) (df_data df)
  && ((0 <? df_nrows df)%nat || forallb (fun s => negb (numeric_series s)) (df_data df)).

(** [df[label]]: the column of that name, or a frame of all the columns of
    that name when several have it; [KeyError] when none has. *)
Inductive selection :=
| SelSeries (s : Series)
| SelFrame (cols : list Series).

Definition columns_named (df : DataFrame) (label : Py.str) : list Series :=
  omap (fun '(c, s) => if decide (c = label) then Some s else None)
       (zip (df_columns df) (df_data df)).

Definition getitem (df : DataFrame) (label : Py.str) : outcome selection :=
  match columns_named df label with
  | [] => Raise (Exn "KeyError" (Py.lit "'" ++ label ++ Py.lit "'"))
  | [s] => Ok (SelSeries s)
  | cols => Ok (SelFrame cols)
  end.

(** [pd.api.types.is_numeric_dtype(df[label])]: a frame has no dtype and is
    not numeric. *)
Definition is_numeric_dtype (sel : selection) : bool :=
  match sel with
  | SelSeries s => numeric_series s
  | SelFrame _ => false
  end.

(** One cell of [.astype(str)]: a [bytes] is decoded as UTF-8, which raises
    when the bytes are not valid UTF-8 (the message of the exception, which
    names the offending byte and its position, is abridged); any other value
    becomes its [str]. *)
Definition cast_str (v : value) : outcome Py.str :=
  match v with
  | VBytes b =>
      match Py.decode_utf8 b with
      | Some s => Ok s
      | None =>
          Raise (Exn "UnicodeDecodeError" (Py.lit "'utf-8' codec can't decode byte"))
      end
  | _ => Ok (py_str v)
  end.

(** [.astype(str)]: a new column of the texts, or the exception of the first
    cell that cannot be cast. *)
Definition series_astype_str (s : Series) : outcome Series :=
  match traverse cast_str (series_cells s) with
  | Ok texts => Ok (Object (map VStr texts))
  | Raise e => Raise e
  end.
Definition astype_str (sel : selection) : outcome selection :=
  match sel with
  | SelSeries s =>
      match series_astype_str s with
      | Ok t => Ok (SelSeries t)
      | Raise e => Raise e
      end
  | SelFrame cols =>
      match traverse series_astype_str cols with
      | Ok ts => Ok (SelFrame ts)
      | Raise e => Raise e
      end
  end.

(** [df.iloc[:, j]] and [df.iloc[i, j]] *)
Definition iloc_col (df : DataFrame) (j : nat) : outcome Series :=
  match df_data df !! j with
  | Some s => Ok s
  | None => Raise (Exn "IndexError" (Py.lit "single positional indexer is out-of-bounds"))
  end.
Definition iloc_cell (df : DataFrame) (i j : nat) : outcome value :=
  match df_data df !! j with
  | Some s =>
      match series_cells s !! i with
      | Some v => Ok v
      | None => Raise (Exn "IndexError" (Py.lit "index out of bounds"))
      end
  | None => Raise (Exn "IndexError" (Py.lit "index out of bounds"))
  end.

(** The rows of a frame, as [df.itertuples(index=False)] yields them. *)
Definition df_row (df : DataFrame) (i : nat) : list value :=
  map (fun s => default VNone (series_cells s !! i)) (df_data df).
Definition df_rows (df : DataFrame) : list (list value) :=
  map (df_row df) (seq 0 (df_nrows df)).

(** [dict(zip(keys, values))]: a later pair overwrites an earlier one. *)
Definition dict_of_zip (keys : list Py.str) (vals : list value)
  : gmap Py.str value :=
  foldl (fun m kv => <[kv.1 := kv.2]> m) ∅ (zip keys vals).

(** [df.to_dict(orient="records")] *)
Definition to_dict_records (df : DataFrame) : list (gmap Py.str value) :=
  map (dict_of_zip (df_columns df)) (df_rows df).

(** ** The query executor *)

(** What [execute_sql] returns: a frame, or the text of an error. *)
Definition result : Type := DataFrame + Py.str.

Section Executor.
(** The SQLite connection: [conn.cursor()], [cursor.execute(query)] and
    [cursor.fetchall()] act on the world and may raise; [cursor.description]
    reads the names of the result columns ([desc[0]] of each entry) of the
    last statement, or [None] when it returned no columns. *)
Context {world cursor : Type}.
Variable conn_cursor : M world cursor.
Variable cursor_execute : cursor -> Py.str -> M world unit.
Variable cursor_fetchall : cursor -> M world (list (list value)).
Variable cursor_description : cursor -> world -> option (list Py.str).

(** [[desc[0] for desc in cursor.description]] *)
Definition description_names (c : cursor) : M world (list Py.str) :=
  fun w => match cursor_description c w with
           | Some names => (Ok names, w)
           | None => (Raise (Exn "TypeError" (Py.lit "'NoneType' object is not iterable")), w)
           end.

(** Lines 68-72, the guarded region. *)
Definition fetch_frame (query : Py.str) : M world DataFrame :=
  cursor ← conn_cursor;
  cursor_execute cursor query;;
  rows ← cursor_fetchall cursor;
  columns ← description_names cursor;
  lift (DataFrame_new rows columns).

Definition execute_sql (query : Py.str) : M world result :=
  try_except
    (df ← fetch_frame query; mret (inl df))
    (fun e => mret (inr (Py.lit "Error: " ++ exn_msg e))).

End Executor.

(** ** The chart and the plotting area (matplotlib, tkinter) *)

(** The data handed to [ax.plot]: a column or a list is one-dimensional, a
    frame is two-dimensional. *)
Inductive arraylike :=
| Arr1 (xs : list value)
| Arr2 (cols : list (list value)).

Definition array_of (sel : selection) : arraylike :=
  match sel with
  | SelSeries s => Arr1 (series_cells s)
  | SelFrame cols => Arr2 (map series_cells cols)
  end.

Record Line2D := {
  ln_x : arraylike;
  ln_y : arraylike;
  ln_color : string;
  ln_marker : string;
  ln_linewidth : option Z
}.

Record Axes := {
  ax_lines : list Line2D;
  ax_title : Py.str;
  ax_xlabel : Py.str;
  ax_ylabel : Py.str;
  ax_xtick_rotation : option Z;
  ax_grid : option (string * Q)
}.

Record Figure := {
  fig_figsize : Z * Z;
  fig_dpi : Z;
  fig_axes : list Axes
}.

(** [fig.add_subplot(111)] on a new figure: axes with nothing on them. *)
Definition new_axes : Axes :=
  {| ax_lines := []; ax_title := []; ax_xlabel := []; ax_ylabel := [];
     ax_xtick_rotation := None; ax_grid := None |}.

Definition ax_plot (x y : arraylike) (color marker : string)
  (linewidth : option Z) (ax : Axes) : Axes :=
  {| ax_lines := ax_lines ax ++
                 [ {| ln_x := x; ln_y := y; ln_color := color;
                      ln_marker := marker; ln_linewidth := linewidth |} ];
     ax_title := ax_title ax; ax_xlabel := ax_xlabel ax;
     ax_ylabel := ax_ylabel ax; ax_xtick_rotation := ax_xtick_rotation ax;
     ax_grid := ax_grid ax |}.
Definition set_title (t : Py.str) (ax : Axes) : Axes :=
  {| ax_lines := ax_lines ax; ax_title := t; ax_xlabel := ax_xlabel ax;
     ax_ylabel := ax_ylabel ax; ax_xtick_rotation := ax_xtick_rotation ax;
     ax_grid := ax_grid ax |}.
Definition set_xlabel (t : Py.str) (ax : Axes) : Axes :=
  {| ax_lines := ax_lines ax; ax_title := ax_title ax; ax_xlabel := t;
     ax_ylabel := ax_ylabel ax; ax_xtick_rotation := ax_xtick_rotation ax;
     ax_grid := ax_grid ax |}.
Definition set_ylabel (t : Py.str) (ax : Axes) : Axes :=
  {| ax_lines := ax_lines ax; ax_title := ax_title ax; ax_xlabel := ax_xlabel ax;
     ax_ylabel := t; ax_xtick_rotation := ax_xtick_rotation ax;
     ax_grid := ax_grid ax |}.
Definition tick_params_x (rotation : Z) (ax : Axes) : Axes :=
  {| ax_lines := ax_lines ax; ax_title := ax_title ax; ax_xlabel := ax_xlabel ax;
     ax_ylabel := ax_ylabel ax; ax_xtick_rotation := Some rotation;
     ax_grid := ax_grid ax |}.
Definition grid (linestyle : string) (alpha : Q) (ax : Axes) : Axes :=
  {| ax_lines := ax_lines ax; ax_title := ax_title ax; ax_xlabel := ax_xlabel ax;
     ax_ylabel := ax_ylabel ax; ax_xtick_rotation := ax_xtick_rotation ax;
     ax_grid := Some (linestyle, alpha) |}.

(** A [FigureCanvasTkAgg]: the figure it shows, whether it was drawn and
    whether its widget was packed. The state of the plotting area is the list
    of the children of [plot_frame]. *)
Record Canvas := {
  cv_figure : Figure;
  cv_drawn : bool;
  cv_packed : bool
}.

(** The figure of lines 84-85 around the axes [ax]. *)
Definition figure_of (ax : Axes) : Figure :=
  {| fig_figsize := (6, 4)%Z; fig_dpi := 100; fig_axes := [ax] |}.

(** A text that matplotlib reads as a mathtext expression and cannot parse:
    a superscript sign with nothing around it. *)
Definition bad_mathtext : Py.str := Py.lit "$^$".

(** What the libraries decide where presenting a result can fail late: the
    renderer of matplotlib and the JSON encoder of the web framework, and how
    Python and pandas write a missing number. *)
Class Backend := {
  (** [canvas.draw()]: the figure is rendered, or the renderer raises (a
      [ValueError] when a title, an axis label or a tick label cannot be
      parsed as mathtext) *)
  canvas_draw : Figure -> outcome unit;
  (** blank axes are always rendered *)
  canvas_draw_blank : canvas_draw (figure_of new_axes) = Ok tt;
  (** a title or an axis label that is not valid mathtext is not *)
  canvas_draw_bad_mathtext :
    forall fig ax,
      ax ∈ fig_axes fig ->
      ax_title ax = bad_mathtext \/ ax_xlabel ax = bad_mathtext
      \/ ax_ylabel ax = bad_mathtext ->
      exists e, canvas_draw fig = Raise e;
  (** [math.isfinite(x)]: [json.dumps(..., allow_nan=False)] refuses the
      floats that are not finite, not-a-number among them *)
  float_is_finite : float -> bool;
  nan_is_not_finite : float_is_finite nan = false;
  (** Python writes not-a-number [nan]; pandas prints it [NaN] in a column of
      floats *)
  str_of_float_nan : str_of_float nan = Py.lit "nan";
  format_float_column_nan :
    forall xs i, xs !! i = Some nan ->
                 format_float_column xs !! i = Some (Py.lit "NaN")
}.
Context `{Backend}.

(** [for widget in plot_frame.winfo_children(): widget.destroy()] *)
Definition clear_plot_frame : M (list Canvas) unit :=
  fun _ => (Ok tt, []).

(** [canvas = FigureCanvasTkAgg(fig, master=plot_frame)]: the new canvas is a
    child of the plotting area, not yet drawn and not yet packed. *)
Definition new_canvas (fig : Figure) : M (list Canvas) unit :=
  fun children =>
    (Ok tt, children ++ [ {| cv_figure := fig; cv_drawn := false; cv_packed := false |} ]).

(** [canvas.draw()] on the canvas created last: when the renderer raises the
    canvas stays as it is. *)
Definition draw_last : M (list Canvas) unit :=
  fun children =>
    match reverse children with
    | [] => (Ok tt, children)
    | cv :: earlier =>
        match canvas_draw (cv_figure cv) with
        | Ok _ =>
            (Ok tt,
             reverse earlier
             ++ [ {| cv_figure := cv_figure cv; cv_drawn := true;
                     cv_packed := cv_packed cv |} ])
        | Raise e => (Raise e, children)
        end
    end.

(** [canvas.get_tk_widget().pack()] on the canvas created last. *)
Definition pack_last : M (list Canvas) unit :=
  fun children =>
    match reverse children with
    | [] => (Ok tt, children)
    | cv :: earlier =>
        (Ok tt,
         reverse earlier
         ++ [ {| cv_figure := cv_figure cv; cv_drawn := cv_drawn cv;
                 cv_packed := true |} ])
    end.

(** Lines 102-104. *)
Definition show_figure (fig : Figure) : M (list Canvas) unit :=
  new_canvas fig;;
  draw_last;;
  pack_last.

(** [x_col, y_col = df.columns] *)
Definition unpack2 (cols : list Py.str) : outcome (Py.str * Py.str) :=
  match cols with
  | [x; y] => Ok (x, y)
  | [] | [_] =>
      Raise (Exn "ValueError"
               (Py.lit "not enough values to unpack (expected 2, got "
                ++ Py.str_of_int (Z.of_nat (length cols)) ++ Py.lit ")"))
  | _ => Raise (Exn "ValueError" (Py.lit "too many values to unpack (expected 2)"))
  end.

(** Lines 87-100: what is put on the axes, by the shape of the frame. The
    axes object [ax] is the one the figure holds, so the figure shows what is
    drawn here. *)
Definition draw_on_axes (df : DataFrame) (ax : Axes) : outcome Axes :=
  if (df_ncols df =? 2)%nat then
    match unpack2 (df_columns df) with
    | Raise e => Raise e
    | Ok (x_col, y_col) =>
        match getitem df y_col with
        | Raise e => Raise e
        | Ok ysel =>
            if is_numeric_dtype ysel then
              match getitem df x_col with
              | Raise e => Raise e
              | Ok xsel =>
                  match astype_str xsel with
                  | Raise e => Raise e
                  | Ok xtext =>
                      Ok (grid "--" (1 # 2)
                            (tick_params_x 45
                               (set_ylabel y_col
                                  (set_xlabel x_col
                                     (set_title (y_col ++ Py.lit " by " ++ x_col)
                                        (ax_plot (array_of xtext)
                                           (array_of ysel) "blue" "o" (Some 2%Z) ax))))))
                  end
              end
            else Ok ax
        end
    end
  else if (df_ncols df =? 1)%nat then
    match iloc_col df 0 with
    | Raise e => Raise e
    | Ok s =>
        if numeric_series s then
          match iloc_cell df 0 0 with
          | Raise e => Raise e
          | Ok value =>
              match df_columns df !! 0%nat with
              | None => Raise (Exn "IndexError" (Py.lit "index 0 is out of bounds for axis 0 with size 0"))
              | Some label =>
                  Ok (set_title label
                        (ax_plot (Arr1 [VStr label]) (Arr1 [value]) "red" "o" None ax))
              end
          end
        else Ok ax
    end
  else Ok ax.

(** [plot_if_possible(df)]: the argument is whatever [execute_sql] returned;
    only a frame that is not empty gets a figure. *)
Definition plot_if_possible (df : result) : M (list Canvas) unit :=
  clear_plot_frame;;
  match df with
  | inl df =>
      if negb (df_empty df) then
        ax ← lift (draw_on_axes df new_axes);
        show_figure (figure_of ax)
      else mret tt
  | inr _ => mret tt
  end.

(** ** The text table ([DataFrame.to_string(index=False)]) *)

(** The printer writes a tab, a carriage return and a line feed inside a
    label or a text cell as a backslash and a letter. *)
Definition escape (s : Py.str) : Py.str :=
  flat_map (fun c => if c =? 9 then [92; 116]
                     else if c =? 13 then [92; 114]
                     else if c =? 10 then [92; 110]
                     else [c]) s.

(** The text of a cell of a column of objects. *)
Definition format_object_cell (v : value) : Py.str :=
  match v with
  | VNone => Py.lit "None"
  | VFloat x => format_float_object x
  | _ => escape (py_str v)
  end.

(** The texts of the cells of a column, before justification. *)
Definition format_col (s : Series) : list Py.str :=
  match s with
  | Int64 xs => map Py.str_of_int xs
  | Float64 xs => format_float_column xs
  | Object xs => map format_object_cell xs
  end.

(** The dictionary from formatted label to "the column is numeric" that the
    printer consults; with a repeated label the last column decides. *)
Definition need_leadsp (df : DataFrame) : gmap Py.str bool :=
  foldl (fun m kv => <[kv.1 := kv.2]> m) ∅
        (zip (map escape (df_columns df)) (map numeric_series (df_data df))).

(** The header text of a column: its escaped label, after one space when the
    column is numeric. *)
Definition header_label (df : DataFrame) (c : Py.str) : Py.str :=
  if default false (need_leadsp df !! escape c)
  then 32 :: escape c else escape c.

Definition rjust (w : nat) (s : Py.str) : Py.str :=
  replicate (w - length s) 32 ++ s.

Definition max_len (texts : list Py.str) : nat :=
  foldr (fun t w => Nat.max (length t) w) 0%nat texts.

(** One column of the table: header first, every text right-justified to the
    widest. *)
Definition strcol (df : DataFrame) (c : Py.str) (s : Series) : list Py.str :=
  let texts := header_label df c :: format_col s in
  map (rjust (max_len texts)) texts.

Definition strcols (df : DataFrame) : list (list Py.str) :=
  zip_with (strcol df) (df_columns df) (df_data df).

(** Line [i] of the table: field [i] of every column. *)
Definition table_line (cols : list (list Py.str)) (i : nat) : list Py.str :=
  map (fun col => default [] (col !! i)) cols.

(** The notice printed for a frame without rows or columns; at most 100
    labels are listed. *)
Definition empty_info_line (df : DataFrame) : Py.str :=
  Py.lit "Empty DataFrame" ++ Py.nl
  ++ Py.lit "Columns: [" ++ Py.join (Py.lit ", ") (take 100 (df_columns df))
  ++ (if (100 <? df_ncols df)%nat then Py.lit ", ..." else [])
  ++ Py.lit "]" ++ Py.nl ++ Py.lit "Index: []".

(** [df.to_string(index=False)]: the header line and one line per row, the
    fields of a line separated by one space; no index field. *)
Definition to_string_noindex (df : DataFrame) : Py.str :=
  if df_empty df then empty_info_line df
  else Py.join Py.nl
         (map (fun i => Py.join [32] (table_line (strcols df) i))
              (seq 0 (S (df_nrows df)))).

(** ** The HTTP handler *)

Record QueryInput := { question : Py.str }.

(** The values of the returned dictionary. *)
Inductive pyobj :=
| PStr (s : Py.str)
| PRecords (records : list (gmap Py.str value)).

(** What the framework can encode as JSON and send as UTF-8
    ([jsonable_encoder], then [json.dumps] with [allow_nan=False], then
    [encode("utf-8")]): a text without a lone surrogate, [None], an [int], a
    finite [float], and a [bytes] that decodes as UTF-8. *)
Definition text_encodes (s : Py.str) : bool :=
  forallb (fun c => negb ((55296 <=? c) && (c <=? 57343))) s.
Definition value_encodes (v : value) : bool :=
  match v with
  | VNone | VInt _ => true
  | VFloat x => float_is_finite x
  | VStr s => text_encodes s
  | VBytes b =>
      match Py.decode_utf8 b with
      | Some s => text_encodes s
      | None => false
      end
  end.
Definition record_encodes (record : gmap Py.str value) : bool :=
  forallb (fun kv => text_encodes kv.1 && value_encodes kv.2)
          (map_to_list record).
Definition pyobj_encodes (o : pyobj) : bool :=
  match o with
  | PStr s => text_encodes s
  | PRecords records => forallb record_encodes records
  end.
Definition body_encodes (body : list (Py.str * pyobj)) : bool :=
  forallb (fun kv => text_encodes kv.1 && pyobj_encodes kv.2) body.

(** What a response carries: a dictionary sent as JSON, or a plain text. *)
Inductive content :=
| Json (body : list (Py.str * pyobj))
| Plain (text : Py.str).

(** The response to a request whose handling raised. *)
Definition internal_server_error : Z * content :=
  (500%Z, Plain (Py.lit "Internal Server Error")).

Section Api.
Context {world response cursor : Type}.
Variable generate_content : Py.str -> M world response.
Variable response_text : response -> outcome Py.str.
Variable conn_cursor : M world cursor.
Variable cursor_execute : cursor -> Py.str -> M world unit.
Variable cursor_fetchall : cursor -> M world (list (list value)).
Variable cursor_description : cursor -> world -> option (list Py.str).

(** The dictionary of lines 185-195, in the order its keys are written. *)
Definition api_ask (data : QueryInput) : M world (list (Py.str * pyobj)) :=
  sql ← question_to_sql generate_content response_text (question data);
  result ← execute_sql conn_cursor cursor_execute cursor_fetchall
             cursor_description sql;
  match result with
  | inl df =>
      mret [ (Py.lit "question", PStr (question data));
             (Py.lit "sql", PStr sql);
             (Py.lit "result", PRecords (to_dict_records df)) ]
  | inr err =>
      mret [ (Py.lit "question", PStr (question data));
             (Py.lit "sql", PStr sql);
             (Py.lit "error", PStr err) ]
  end.

(** The route [@app.post("/ask")] declares no status code: the framework
    answers a returned dictionary that it can encode with 200 and the
    dictionary as JSON; when the encoding raises, or an exception leaves the
    handler, it answers with 500 and a plain text. *)
Definition post_ask (data : QueryInput) : world -> (Z * content) * world :=
  fun w => match api_ask data w with
           | (Ok body, w') =>
               if body_encodes body then ((200%Z, Json body), w')
               else (internal_server_error, w')
           | (Raise _, w') => (internal_server_error, w')
           end.

End Api.
End Frames.

(** ** The interactive surface (tkinter) *)

Section Desktop.
Context `{Backend}.

(** The widgets [ask_question] works on: the text of the entry, the text of
    the transcript, the children of the plotting area, the warnings shown in
    message boxes (title and message), and the number of [time.sleep(0.01)]
    calls made so far. *)
Record Gui := {
  question_entry : Py.str;
  result_text : Py.str;
  plot_frame : list Canvas;
  warnings : list (Py.str * Py.str);
  slept : nat
}.

(** A step on one component of a pair of states. *)
Definition on_fst {S T A : Type} (m : M S A) : M (S * T) A :=
  fun st => let '(o, s') := m st.1 in (o, (s', st.2)).
Definition on_snd {S T A : Type} (m : M T A) : M (S * T) A :=
  fun st => let '(o, t') := m st.2 in (o, (st.1, t')).

(** [question_entry.get()] *)
Definition entry_get : M Gui Py.str :=
  fun g => (Ok (question_entry g), g).

(** [question_entry.delete(0, tk.END)] *)
Definition entry_delete_all : M Gui unit :=
  fun g => (Ok tt,
            {| question_entry := []; result_text := result_text g;
               plot_frame := plot_frame g; warnings := warnings g;
               slept := slept g |}).

(** [result_text.insert(tk.END, text)] *)
Definition insert_end (text : Py.str) : M Gui unit :=
  fun g => (Ok tt,
            {| question_entry := question_entry g;
               result_text := result_text g ++ text;
               plot_frame := plot_frame g; warnings := warnings g;
               slept := slept g |}).

(** [time.sleep(0.01)] *)
Definition sleep_tick : M Gui unit :=
  fun g => (Ok tt,
            {| question_entry := question_entry g; result_text := result_text g;
               plot_frame := plot_frame g; warnings := warnings g;
               slept := S (slept g) |}).

(** [messagebox.showwarning(title, message)] *)
Definition showwarning (title message : Py.str) : M Gui unit :=
  fun g => (Ok tt,
            {| question_entry := question_entry g; result_text := result_text g;
               plot_frame := plot_frame g;
               warnings := warnings g ++ [(title, message)];
               slept := slept g |}).

(** A step on the plotting area. *)
Definition on_plot_frame {A : Type} (m : M (list Canvas) A) : M Gui A :=
  fun g => let '(o, children) := m (plot_frame g) in
           (o, {| question_entry := question_entry g;
                  result_text := result_text g;
                  plot_frame := children; warnings := warnings g;
                  slept := slept g |}).

(** [stream_insert(text)]: every character is inserted at the end of the
    transcript and followed by a sleep; [see] and [update] only scroll and
    redraw. *)
Fixpoint stream_insert (text : Py.str) : M Gui unit :=
  match text with
  | [] => mret tt
  | char :: rest =>
      insert_end [char];;
      sleep_tick;;
      stream_insert rest
  end.

(** The texts [ask_question] writes into the transcript; the code points
    128269, 129504, 9989 and 10060 are the pictographs that open them. *)
Definition question_line (question : Py.str) : Py.str :=
  Py.nl ++ Py.nl ++ [128269] ++ Py.lit " Question: " ++ question ++ Py.nl.
Definition sql_line (sql_query : Py.str) : Py.str :=
  [129504] ++ Py.lit " SQL Query: " ++ sql_query ++ Py.nl.
Definition result_head : Py.str := [9989] ++ Py.lit " Result:" ++ Py.nl.
Definition error_text (err : Py.str) : Py.str :=
  [10060] ++ Py.lit " Error:" ++ Py.nl ++ err.

Section AskQuestion.
Context {world response cursor : Type}.
Variable generate_content : Py.str -> M world response.
Variable response_text : response -> outcome Py.str.
Variable conn_cursor : M world cursor.
Variable cursor_execute : cursor -> Py.str -> M world unit.
Variable cursor_fetchall : cursor -> M world (list (list value)).
Variable cursor_description : cursor -> world -> option (list Py.str).

(** [ask_question()], lines 115-134. *)
Definition ask_question : M (world * Gui) unit :=
  question ← on_snd entry_get;
  match Py.strip question with
  | [] =>
      on_snd (showwarning (Py.lit "Input Required")
                (Py.lit "Please enter a question."))
  | _ :: _ =>
      on_snd (insert_end (question_line question));;
      sql_query ← on_fst (question_to_sql generate_content response_text question);
      on_snd (stream_insert (sql_line sql_query));;
      result ← on_fst (execute_sql conn_cursor cursor_execute cursor_fetchall
                         cursor_description sql_query);
      match result with
      | inl df =>
          on_snd (stream_insert result_head);;
          on_snd (stream_insert (to_string_noindex df));;
          on_snd (on_plot_frame (plot_if_possible result))
      | inr err =>
          on_snd (stream_insert (error_text err))
      end;;
      on_snd entry_delete_all
  end.

End AskQuestion.

(** ** Stored cells *)

(** A column of fetched values is stored as floats when it holds no text and
    holds a float, or an int beside a [None]. *)
Definition float_column (vs : list value) : bool :=
  negb (existsb is_text vs)
  && (existsb is_float vs || (existsb is_int vs && existsb is_none vs)).

End Desktop.

(** ** The Result Set as a shared object *)

(** [ask_question] and [api_ask] hand the frame that [execute_sql] returned
    to the presentation operations by reference, and a frame shares its
    columns with whoever selects them: [df[label]] gives out the column object
    of the frame, not a copy. To state that presenting leaves the Result Set
    as it is, the operations are written here once more on a store of
    objects, expression by expression: a frame object holds its labels and
    the addresses of its column objects, [.astype(str)] makes a new column
    object, and everything else reads. *)
Section Objects.
Context `{Backend}.

Definition loc : Type := nat.

Inductive object :=
| OSeries (s : Series)
| OFrame (columns : list Py.str) (data : list loc) (nrows : nat).

Local Abbreviation heap := (gmap loc object).

(** Reading the frame or the column at an address; the operations below are
    applied to the address of a frame and to the addresses of its columns,
    on any other object Python finds no such attribute. *)
Definition frame_at (r : loc) : M heap (list Py.str * list loc * nat) :=
  fun h => match h !! r with
           | Some (OFrame columns data nrows) => (Ok (columns, data, nrows), h)
           | _ => (Raise (Exn "AttributeError" (Py.lit "no such attribute")), h)
           end.
Definition series_at (l : loc) : M heap Series :=
  fun h => match h !! l with
           | Some (OSeries s) => (Ok s, h)
           | _ => (Raise (Exn "AttributeError" (Py.lit "no such attribute")), h)
           end.

(** A new object gets an address that is not in use. *)
Definition alloc (o : object) : M heap loc :=
  fun h => let l := fresh (dom h) in (Ok l, <[l := o]> h).

(** [df.columns] and [df.empty] *)
Definition obj_columns (r : loc) : M heap (list Py.str) :=
  f ← frame_at r; mret f.1.1.
Definition obj_empty (r : loc) : M heap bool :=
  f ← frame_at r; mret ((f.2 =? 0)%nat || (length f.1.1 =? 0)%nat).

(** [df[label]]: the column objects of the frame that carry the label. *)
Inductive ref_selection :=
| RefSeries (l : loc)
| RefFrame (ls : list loc).

Definition obj_getitem (r : loc) (label : Py.str) : M heap ref_selection :=
  f ← frame_at r;
  match omap (fun '(c, l) => if decide (c = label) then Some l else None)
             (zip f.1.1 f.1.2) with
  | [] => lift (Raise (Exn "KeyError" (Py.lit "'" ++ label ++ Py.lit "'")))
  | [l] => mret (RefSeries l)
  | ls => mret (RefFrame ls)
  end.

Definition obj_is_numeric_dtype (sel : ref_selection) : M heap bool :=
  match sel with
  | RefSeries l => s ← series_at l; mret (numeric_series s)
  | RefFrame _ => mret false
  end.

(** [.astype(str)]: the texts go into a new column object. *)
Definition obj_astype_series (l : loc) : M heap loc :=
  s ← series_at l;
  t ← lift (series_astype_str s);
  alloc (OSeries t).
Definition obj_astype_str (sel : ref_selection) : M heap ref_selection :=
  match sel with
  | RefSeries l => l' ← obj_astype_series l; mret (RefSeries l')
  | RefFrame ls => ls' ← for_each obj_astype_series ls; mret (RefFrame ls')
  end.

(** The data [ax.plot] reads from what it is handed. *)
Definition obj_array_of (sel : ref_selection) : M heap arraylike :=
  match sel with
  | RefSeries l => s ← series_at l; mret (Arr1 (series_cells s))
  | RefFrame ls => cols ← for_each series_at ls; mret (Arr2 (map series_cells cols))
  end.

(** [df.iloc[:, j]] and [df.iloc[i, j]] *)
Definition obj_iloc_col (r : loc) (j : nat) : M heap loc :=
  f ← frame_at r;
  match f.1.2 !! j with
  | Some l => mret l
  | None => lift (Raise (Exn "IndexError"
                           (Py.lit "single positional indexer is out-of-bounds")))
  end.
Definition obj_iloc_cell (r : loc) (i j : nat) : M heap value :=
  f ← frame_at r;
  match f.1.2 !! j with
  | Some l =>
      s ← series_at l;
      match series_cells s !! i with
      | Some v => mret v
      | None => lift (Raise (Exn "IndexError" (Py.lit "index out of bounds")))
      end
  | None => lift (Raise (Exn "IndexError" (Py.lit "index out of bounds")))
  end.

(** Lines 87-100 on the frame object at [r]. *)
Definition obj_draw_on_axes (r : loc) (ax : Axes) : M heap Axes :=
  columns ← obj_columns r;
  if (length columns =? 2)%nat then
    names ← lift (unpack2 columns);
    ysel ← obj_getitem r names.2;
    numeric ← obj_is_numeric_dtype ysel;
    if numeric : bool then
      xsel ← obj_getitem r names.1;
      xtext ← obj_astype_str xsel;
      x ← obj_array_of xtext;
      y ← obj_array_of ysel;
      mret (grid "--" (1 # 2)
              (tick_params_x 45
                 (set_ylabel names.2
                    (set_xlabel names.1
                       (set_title (names.2 ++ Py.lit " by " ++ names.1)
                          (ax_plot x y "blue" "o" (Some 2%Z) ax))))))
    else mret ax
  else if (length columns =? 1)%nat then
    l ← obj_iloc_col r 0;
    s ← series_at l;
    if numeric_series s then
      value ← obj_iloc_cell r 0 0;
      match columns !! 0%nat with
      | None =>
          lift (Raise (Exn "IndexError"
                         (Py.lit "index 0 is out of bounds for axis 0 with size 0")))
      | Some label =>
          mret (set_title label
                  (ax_plot (Arr1 [VStr label]) (Arr1 [value]) "red" "o" None ax))
      end
    else mret ax
  else mret ax.

(** [plot_if_possible(df)] on the store and the plotting area. *)
Definition obj_plot_if_possible (df : loc + Py.str)
  : M (heap * list Canvas) unit :=
  on_snd clear_plot_frame;;
  match df with
  | inl r =>
      empty ← on_fst (obj_empty r);
      if negb empty then
        ax ← on_fst (obj_draw_on_axes r new_axes);
        on_snd (show_figure (figure_of ax))
      else mret tt
  | inr _ => mret tt
  end.

(** The frame read off the store, with its columns. *)
Definition read_frame (r : loc) : M heap DataFrame :=
  f ← frame_at r;
  data ← for_each series_at f.1.2;
  mret {| df_columns := f.1.1; df_data := data; df_nrows := f.2 |}.

(** [result.to_dict(orient="records")] and [result.to_string(index=False)]
    on the frame object at [r]. *)
Definition obj_to_dict_records (r : loc) : M heap (list (gmap Py.str value)) :=
  df ← read_frame r; mret (to_dict_records df).
Definition obj_to_string_noindex (r : loc) : M heap Py.str :=
  df ← read_frame r; mret (to_string_noindex df).

(** The address [r] holds the frame [df]: the frame object there has the
    labels of [df] and, column by column, the addresses of column objects
    that hold the data of [df]. *)
Definition column_at (h : heap) (l : loc) (s : Series) : Prop :=
  h !! l = Some (OSeries s).
Definition represents (h : heap) (r : loc) (df : DataFrame) : Prop :=
  exists data,
    h !! r = Some (OFrame (df_columns df) data (df_nrows df))
    /\ Forall2 (column_at h) data (df_data df).

(** A selection of column objects holds the columns of a selection. *)
Definition selects (h : heap) (rs : ref_selection) (sel : selection) : Prop :=
  match rs, sel with
  | RefSeries l, SelSeries s => column_at h l s
  | RefFrame ls, SelFrame cols => Forall2 (column_at h) ls cols
  | _, _ => False
  end.

(** The three presentation operations, and what one of them leaves of the
    store and of the plotting area, whether it returned or raised. *)
Inductive presentation := ToDisplayText | ToRecords | Plot.

Definition present (r : loc) (st : heap * list Canvas) (op : presentation)
  : heap * list Canvas :=
  match op with
  | ToDisplayText => ((obj_to_string_noindex r st.1).2, st.2)
  | ToRecords => ((obj_to_dict_records r st.1).2, st.2)
  | Plot => (obj_plot_if_possible (inl r) st).2
  end.

End Objects.

(** ** The two plotting rules of the presenter *)

(** Exactly two columns, the second numeric. *)
Definition two_column_rule `{Runtime} (df : DataFrame) : bool :=
  match df_columns df, df_data df with
  | [_; _], [_; ys] => numeric_series ys
  | _, _ => false
  end.

(** Exactly one column, numeric. *)
Definition one_column_rule `{Runtime} (df : DataFrame) : bool :=
  match df_columns df, df_data df with
  | [_], [s] => numeric_series s
  | _, _ => false
  end.

(** The plotting area after a figure with the axes [ax] was shown in it,
    and after the renderer refused it. *)
Definition shown `{Runtime} (ax : Axes) : list Canvas :=
  [ {| cv_figure := figure_of ax; cv_drawn := true; cv_packed := true |} ].
Definition refused `{Runtime} (ax : Axes) : list Canvas :=
  [ {| cv_figure := figure_of ax; cv_drawn := false; cv_packed := false |} ].

(** The axes of the two charts. *)
Definition two_column_axes `{Runtime} (x y : Py.str) (xtext : list Py.str)
  (ys : Series) : Axes :=
  {| ax_lines := [ {| ln_x := Arr1 (map VStr xtext);
                      ln_y := Arr1 (series_cells ys);
                      ln_color := "blue"; ln_marker := "o";
                      ln_linewidth := Some 2%Z |} ];
     ax_title := y ++ Py.lit " by " ++ x;
     ax_xlabel := x; ax_ylabel := y;
     ax_xtick_rotation := Some 45%Z;
     ax_grid := Some ("--"%string, 1 # 2) |}.
Definition one_column_axes `{Runtime} (label : Py.str) (v : value) : Axes :=
  {| ax_lines := [ {| ln_x := Arr1 [VStr label]; ln_y := Arr1 [v];
                      ln_color := "red"; ln_marker := "o";
                      ln_linewidth := None |} ];
     ax_title := label;
     ax_xlabel := []; ax_ylabel := [];
     ax_xtick_rotation := None; ax_grid := None |}.

(** ** Text search, for the statements about the text table *)

(** [needle in hay] *)
Definition contains (needle hay : Py.str) : Prop :=
  exists pre post, hay = pre ++ needle ++ post.

(** The number of places of [hay] where [needle] starts. *)
Fixpoint occurrences (needle hay : Py.str) : nat :=
  match hay with
  | [] => if Py.startswith needle [] then 1%nat else 0%nat
  | _ :: rest =>
      ((if Py.startswith needle hay then 1 else 0) + occurrences needle rest)%nat
  end.

(** ** Lines of a text, up to trimming *)

(** [covers a b]: every line of [a] is, up to trimming, a line of [b]. *)
Definition covers (a b : Py.str) : Prop :=
  forall l1, l1 ∈ Py.splitlines a ->
             exists l2, l2 ∈ Py.splitlines b /\ Py.strip l1 = Py.strip l2.

(** ** The fence rule as the specification words it *)



(** ** A small runtime, generator and store for worked examples *)

(** A float is carried by the decimal text Python writes for it; pandas
    prints that text, and [NaN] for not-a-number. *)
Definition demo_print_float (x : Py.str) : Py.str :=
  if decide (x = Py.lit "nan") then Py.lit "NaN" else x.

Definition demo_runtime : Runtime :=
  {| float := Py.str;
     float_of_int := fun z => Py.str_of_int z ++ Py.lit ".0";
     nan := Py.lit "nan";
     str_of_float := fun x => x;
     str_of_bytes := fun b => Py.lit "b'" ++ b ++ Py.lit "'";
     format_float_column := map demo_print_float;
     format_float_column_length := fun xs => length_map demo_print_float xs;
     format_float_object := demo_print_float |}.

(** A renderer that refuses every title and axis label with a dollar sign,
    and an encoder that refuses [nan], [inf] and [-inf]. *)
Definition has_dollar (s : Py.str) : bool := existsb (N.eqb 36) s.
Definition demo_draw (fig : @Figure demo_runtime) : outcome unit :=
  if existsb (fun ax => has_dollar (ax_title ax) || has_dollar (ax_xlabel ax)
                        || has_dollar (ax_ylabel ax))
             (fig_axes fig)
  then Raise (Exn "ValueError" (Py.lit "ParseException"))
  else Ok tt.

Definition demo_backend : @Backend demo_runtime :=
  {| canvas_draw := demo_draw;
     canvas_draw_blank := eq_refl;
     canvas_draw_bad_mathtext :=
       ltac:(intros fig ax Hin Hbad; eexists; unfold demo_draw;
             assert (existsb (fun ax : @Axes demo_runtime =>
                                has_dollar (ax_title ax) || has_dollar (ax_xlabel ax)
                                || has_dollar (ax_ylabel ax))
                             (fig_axes fig) = true) as ->; [|reflexivity];
             apply existsb_exists; exists ax;
             split; [now apply list_elem_of_In|];
             destruct Hbad as [Hbad|[Hbad|Hbad]]; rewrite Hbad;
             cbn; rewrite ?orb_true_r; reflexivity);
     float_is_finite := fun x : @float demo_runtime =>
       negb (bool_decide (x ∈ [Py.lit "nan"; Py.lit "inf"; Py.lit "-inf"]));
     nan_is_not_finite := eq_refl;
     str_of_float_nan := eq_refl;
     format_float_column_nan :=
       fun xs i Hi =>
         eq_trans (list_lookup_fmap demo_print_float xs i)
                  (f_equal (fmap demo_print_float) Hi) |}.

(** A generator that answers every prompt with [reply] and leaves the world
    as it is; the text of a response is the response. *)
Definition demo_generate {world : Type} (reply : outcome Py.str)
  : Py.str -> M world Py.str :=
  fun _ w => (reply, w).
Definition demo_text (response : Py.str) : outcome Py.str := Ok response.

(** A store with one table of (date, ad_sales) rows. It knows two statements,
    a SELECT of the table and an INSERT of one row, and faults on any other
    text. The cursor keeps the column names and the rows of the last
    statement. *)
Record demo_db := {
  db_ad_sales : list (Py.str * Z);
  db_names : option (list Py.str);
  db_rows : list (list (@value demo_runtime))
}.

Definition demo_select : Py.str := Py.lit "SELECT date, ad_sales FROM AdSales".
Definition demo_insert : Py.str :=
  Py.lit "INSERT INTO AdSales (date, ad_sales) VALUES ('2024-01-03', 7)".

(** The text up to the first white space. *)
Fixpoint first_word (s : Py.str) : Py.str :=
  match s with
  | [] => []
  | c :: r => if Py.isspace c then [] else c :: first_word r
  end.

Definition demo_cursor : M demo_db unit := fun db => (Ok tt, db).

Definition demo_execute (c : unit) (query : Py.str) : M demo_db unit :=
  fun db =>
    if decide (query = demo_select) then
      (Ok tt,
       {| db_ad_sales := db_ad_sales db;
          db_names := Some [Py.lit "date"; Py.lit "ad_sales"];
          db_rows := map (fun r => [VStr r.1; VInt r.2]) (db_ad_sales db) |})
    else if decide (query = demo_insert) then
      (Ok tt,
       {| db_ad_sales := db_ad_sales db ++ [(Py.lit "2024-01-03", 7%Z)];
          db_names := None;
          db_rows := [] |})
    else
      (Raise (Exn "sqlite3.OperationalError"
                (Py.lit "near " ++ Py.quote
                 ++ first_word query
                 ++ Py.quote ++ Py.lit ": syntax error")),
       db).

Definition demo_fetchall (c : unit) : M demo_db (list (list (@value demo_runtime))) :=
  fun db => (Ok (db_rows db), db).

Definition demo_description (c : unit) (db : demo_db) : option (list Py.str) :=
  db_names db.

Definition demo_db0 : demo_db :=
  {| db_ad_sales := [(Py.lit "2024-01-01", 10%Z); (Py.lit "2024-01-02", 25%Z)];
     db_names := None;
     db_rows := [] |}.

Definition demo_execute_sql : Py.str -> M demo_db (@result demo_runtime) :=
  @execute_sql demo_runtime _ _ demo_cursor demo_execute demo_fetchall demo_description.



(** The store after the INSERT. *)
Definition demo_db1 : demo_db :=
  {| db_ad_sales := [(Py.lit "2024-01-01", 10%Z); (Py.lit "2024-01-02", 25%Z);
                     (Py.lit "2024-01-03", 7%Z)];
     db_names := None;
     db_rows := [] |}.

(** Two responses of the generator: a query between two marker lines, and a
    query that shares its line with the markers. *)
Definition fenced_select : Py.str :=
  Py.lit "```" ++ Py.nl ++ Py.lit "SELECT 1" ++ Py.nl ++ Py.lit "```".

(** The frame of the SELECT on the store above. *)
Definition demo_sales_frame : @DataFrame demo_runtime :=
  {| df_columns := [Py.lit "date"; Py.lit "ad_sales"];
     df_data := [Object [VStr (Py.lit "2024-01-01"); VStr (Py.lit "2024-01-02")];
                 Int64 [10%Z; 25%Z]];
     df_nrows := 2 |}.

(** One numeric column: a total. *)
Definition demo_total_frame : @DataFrame demo_runtime :=
  {| df_columns := [Py.lit "total"];
     df_data := [Int64 [42%Z]];
     df_nrows := 1 |}.

(** Two numeric columns of one name, as a join on item_id selects them. *)
Definition demo_join_frame : @DataFrame demo_runtime :=
  {| df_columns := [Py.lit "item_id"; Py.lit "item_id"];
     df_data := [Int64 [1%Z]; Int64 [1%Z]];
     df_nrows := 1 |}.

(** Three columns. *)
Definition demo_wide_frame : @DataFrame demo_runtime :=
  {| df_columns := [Py.lit "date"; Py.lit "item_id"; Py.lit "clicks"];
     df_data := [Object [VStr (Py.lit "2024-01-01")]; Int64 [1%Z]; Int64 [5%Z]];
     df_nrows := 1 |}.

(** A BLOB that is not UTF-8 beside a number. *)
Definition demo_blob_frame : @DataFrame demo_runtime :=
  {| df_columns := [Py.lit "photo"; Py.lit "clicks"];
     df_data := [Object [VBytes [255]]; Int64 [5%Z]];
     df_nrows := 1 |}.

(** Columns named by a text that is not valid mathtext. *)
Definition demo_mathtext_frame : @DataFrame demo_runtime :=
  {| df_columns := [bad_mathtext; Py.lit "clicks"];
     df_data := [Object [VStr (Py.lit "2024-01-01")]; Int64 [5%Z]];
     df_nrows := 1 |}.
Definition demo_mathtext_total_frame : @DataFrame demo_runtime :=
  {| df_columns := [bad_mathtext];
     df_data := [Int64 [42%Z]];
     df_nrows := 1 |}.

(** A label and a text with a tab inside. *)
Definition demo_tab_frame : @DataFrame demo_runtime :=
  {| df_columns := [Py.lit "a" ++ [9] ++ Py.lit "b"];
     df_data := [Object [VStr (Py.lit "x" ++ [9] ++ Py.lit "y")]];
     df_nrows := 1 |}.

(** A column of numbers with a NULL: the NULL is stored as not-a-number. *)
Definition demo_null_rows : list (list (@value demo_runtime)) :=
  [ [VInt 10]; [VNone] ].
Definition demo_null_frame : @DataFrame demo_runtime :=
  {| df_columns := [Py.lit "ad_sales"];
     df_data := [Float64 [@float_of_int demo_runtime 10; @nan demo_runtime]];
     df_nrows := 2 |}.

(** No row under 101 columns named c0 to c100. *)
Definition demo_many_columns : list Py.str :=
  map (fun i => Py.lit "c" ++ Py.str_of_int (Z.of_nat i)) (seq 0 101).
Definition demo_many_columns_frame : @DataFrame demo_runtime :=
  {| df_columns := demo_many_columns;
     df_data := map (fun _ => Object []) demo_many_columns;
     df_nrows := 0 |}.

(** A row of the Eligibility table. *)
Definition demo_eligibility_frame : @DataFrame demo_runtime :=
  {| df_columns := [Py.lit "eligibility_datetime_utc"; Py.lit "item_id";
                    Py.lit "eligibility"; Py.lit "message"];
     df_data := [Object [VStr (Py.lit "2024-01-01 00:00:00")]; Int64 [1%Z];
                 Object [VStr (Py.lit "TRUE")]; Object [VNone]];
     df_nrows := 1 |}.

(** A store that holds the frame of dates and sales at address 0, its two
    columns at the addresses 1 and 2. *)
Definition demo_heap : gmap loc (@object demo_runtime) :=
  <[0%nat := OFrame [Py.lit "date"; Py.lit "ad_sales"] [1%nat; 2%nat] 2]>
    (<[1%nat := OSeries (Object [VStr (Py.lit "2024-01-01"); VStr (Py.lit "2024-01-02")])]>
       (<[2%nat := OSeries (Int64 [10%Z; 25%Z])]> ∅)).

(** The desktop window with [entry] typed into the entry, an earlier line in
    the transcript and the blank figure of an earlier question in the
    plotting area. *)
Definition demo_gui (entry : Py.str) : @Gui demo_runtime :=
  {| question_entry := entry;
     result_text := Py.lit "earlier";
     plot_frame := @shown demo_runtime new_axes;
     warnings := [];
     slept := 0 |}.

(** [ask_question] on the demo store, with a generator that answers [reply]. *)
Definition demo_ask_question (reply : outcome Py.str)
  : M (demo_db * @Gui demo_runtime) unit :=
  @ask_question demo_runtime demo_backend _ _ _ (demo_generate reply) demo_text
    demo_cursor demo_execute demo_fetchall demo_description.

(** * Properties *)

(** ** Trimming and prefixes *)

Section StringFacts.
Import Py.

Lemma lstrip_not_space c r :
  isspace c = false -> lstrip (c :: r) = c :: r.
Proof. intros Hc. simpl. now rewrite Hc. Qed.

Lemma lstrip_idem s : lstrip (lstrip s) = lstrip s.
Proof.
  induction s as [|c r IH]; [reflexivity|].
  simpl. destruct (isspace c) eqn:Hc; [exact IH|].
  now apply lstrip_not_space.
Qed.

Lemma rstrip_cons c r :
  rstrip (c :: r) =
  match rstrip r with
  | [] => if isspace c then [] else [c]
  | r' => c :: r'
  end.
Proof. reflexivity. Qed.

Lemma rstrip_idem s : rstrip (rstrip s) = rstrip s.
Proof.
  induction s as [|c r IH]; [reflexivity|].
  rewrite rstrip_cons. destruct (rstrip r) as [|d r'] eqn:Hr.
  - destruct (isspace c) eqn:Hc; [reflexivity|].
    simpl. now rewrite Hc.
  - rewrite rstrip_cons, IH. reflexivity.
Qed.

(** Trimming one end does not disturb the other. *)
Lemma lstrip_rstrip s : lstrip (rstrip s) = rstrip (lstrip s).
Proof.
  induction s as [|c r IH]; [reflexivity|].
  destruct (isspace c) eqn:Hc.
  - change (lstrip (c :: r)) with (if isspace c then lstrip r else c :: r).
    rewrite Hc, <- IH, rstrip_cons.
    destruct (rstrip r) as [|d r'] eqn:Hr.
    + now rewrite Hc.
    + simpl. now rewrite Hc.
  - rewrite (lstrip_not_space c r Hc), rstrip_cons.
    destruct (rstrip r) as [|d r'] eqn:Hr.
    + rewrite Hc. now apply lstrip_not_space.
    + now apply lstrip_not_space.
Qed.

Lemma strip_idem s : strip (strip s) = strip s.
Proof.
  unfold strip.
  rewrite lstrip_rstrip, lstrip_idem, rstrip_idem. reflexivity.
Qed.

(** A prefix without white space is met after right-trimming exactly when it
    is met before. *)
Lemma startswith_rstrip p : forall s,
  forallb (fun c => negb (isspace c)) p = true ->
  startswith p (rstrip s) = startswith p s.
Proof.
  induction p as [|a p IH]; intros s Hp.
  - now destruct (rstrip s), s.
  - simpl in Hp. apply andb_prop in Hp as [Ha Hp].
    destruct s as [|c r]; [reflexivity|].
    rewrite rstrip_cons. specialize (IH r Hp).
    destruct (rstrip r) as [|d r'] eqn:Hr.
    + destruct (N.eqb_spec a c) as [->|Hne].
      * apply negb_true_iff in Ha. rewrite Ha.
        simpl. rewrite N.eqb_refl. exact IH.
      * destruct (isspace c); simpl;
          destruct (N.eqb_spec a c); try contradiction; reflexivity.
    + simpl. now rewrite IH.
Qed.

Lemma ticks_not_space : forallb (fun c => negb (isspace c)) ticks = true.
Proof. reflexivity. Qed.

(** [line.strip().startswith(marker)] looks at the line with its leading
    white space removed. *)
Lemma startswith_ticks_strip line :
  startswith ticks (strip line) = startswith ticks (lstrip line).
Proof. unfold strip. apply startswith_rstrip, ticks_not_space. Qed.

End StringFacts.

(** ** Lines *)

Section LineFacts.
Import Py.

Lemma linebreak_is_space c : islinebreak c = true -> isspace c = true.
Proof.
  unfold islinebreak, isspace. intros Hc.
  repeat (apply orb_prop in Hc as [Hc|Hc]);
    repeat match goal with
           | H : (_ && _) = true |- _ => apply andb_prop in H as [? ?]
           | H : (_ <=? _) = true |- _ => apply N.leb_le in H
           | H : (_ =? _) = true |- _ => apply N.eqb_eq in H
           end;
    repeat match goal with
           | |- (_ || _) = true => apply orb_true_iff
           | |- _ => idtac
           end.
  all: rewrite ?orb_true_iff, ?andb_true_iff, ?N.leb_le, ?N.eqb_eq; lia.
Qed.

(** The line being read is a prefix of the first line that comes out. *)
Lemma splitlines_from_acc s : forall cur,
  splitlines_from cur s =
  match splitlines s with
  | [] => match cur with [] => [] | _ => [rev cur] end
  | l :: ls => (rev cur ++ l) :: ls
  end.
Proof.
  unfold splitlines.
  induction s as [|c r IH]; intros cur.
  - simpl. destruct cur; [reflexivity|]. reflexivity.
  - simpl. destruct (c =? 13).
    + destruct r as [|d r']; simpl; [now rewrite app_nil_r|].
      destruct d as [|p]; [now rewrite app_nil_r|].
      repeat (destruct p as [p|p|]; try now rewrite app_nil_r).
    + destruct (islinebreak c); [simpl; now rewrite app_nil_r|].
      rewrite (IH (c :: cur)), (IH [c]).
      destruct (splitlines_from [] r) as [|l ls]; simpl.
      * destruct cur; reflexivity.
      * now rewrite <- app_assoc.
Qed.

Lemma splitlines_nonbreak c x :
  islinebreak c = false ->
  splitlines (c :: x) =
  match splitlines x with
  | [] => [[c]]
  | l :: ls => (c :: l) :: ls
  end.
Proof.
  intros Hc. unfold splitlines at 1. simpl.
  assert ((c =? 13) = false) as ->.
  { destruct (N.eqb_spec c 13) as [->|]; [discriminate Hc|reflexivity]. }
  rewrite Hc. apply splitlines_from_acc.
Qed.

(** A text that begins with a line feed. *)
Lemma lf_head x :
  match x with 10 :: _ => true | _ => false end = true ->
  exists x', x = 10 :: x'.
Proof.
  destruct x as [|d x']; [discriminate|].
  destruct (N.eq_dec d 10) as [->|Hd]; [eauto|].
  intros E. exfalso. destruct d as [|p]; [discriminate|].
  repeat (destruct p as [p|p|]; try discriminate). now apply Hd.
Qed.

(** The lines of a text that begins with a line boundary: one empty line,
    then the lines of the rest; a carriage return and line feed count once. *)
Lemma splitlines_break_list c x :
  islinebreak c = true ->
  splitlines (c :: x) =
  if (c =? 13) && match x with 10 :: _ => true | _ => false end
  then splitlines x else [] :: splitlines x.
Proof.
  intros Hc. unfold splitlines at 1. simpl.
  destruct (N.eqb_spec c 13) as [->|Hne]; simpl.
  - destruct x as [|d x']; [reflexivity|].
    destruct d as [|p]; [reflexivity|].
    repeat (destruct p as [p|p|]; try reflexivity).
  - now rewrite Hc.
Qed.

Lemma splitlines_break c x l :
  islinebreak c = true ->
  l ∈ splitlines (c :: x) <-> l = [] \/ l ∈ splitlines x.
Proof.
  intros Hc. rewrite splitlines_break_list by assumption.
  destruct ((c =? 13) && _) eqn:E.
  - apply andb_prop in E as [_ E]. apply lf_head in E as [x' ->].
    change (splitlines (10 :: x')) with ([] :: splitlines x').
    rewrite elem_of_cons. tauto.
  - apply elem_of_cons.
Qed.

(** No line holds a line boundary. *)
Lemma splitlines_no_break s l :
  l ∈ splitlines s -> forallb (fun c => negb (islinebreak c)) l = true.
Proof.
  revert l. induction s as [|c x IH]; intros l Hl.
  - inversion Hl.
  - destruct (islinebreak c) eqn:Hc.
    + apply splitlines_break in Hl as [->|Hl]; auto.
    + rewrite splitlines_nonbreak in Hl by assumption.
      destruct (splitlines x) as [|l0 ls] eqn:Hx.
      * apply list_elem_of_singleton in Hl as ->. simpl. now rewrite Hc.
      * apply elem_of_cons in Hl as [->|Hl].
        -- simpl. rewrite Hc. simpl. apply IH. left.
        -- apply IH. now right.
Qed.

(** Splitting a line followed by a line feed. *)
Lemma splitlines_line_nl p rest :
  forallb (fun c => negb (islinebreak c)) p = true ->
  splitlines (p ++ 10 :: rest) = p :: splitlines rest.
Proof.
  induction p as [|c p IH]; intros Hp.
  - reflexivity.
  - simpl in Hp. apply andb_prop in Hp as [Hc Hp].
    apply negb_true_iff in Hc.
    simpl. rewrite splitlines_nonbreak by assumption.
    now rewrite IH.
Qed.

Lemma splitlines_single p :
  forallb (fun c => negb (islinebreak c)) p = true ->
  splitlines p = match p with [] => [] | _ => [p] end.
Proof.
  induction p as [|c p IH]; intros Hp; [reflexivity|].
  simpl in Hp. apply andb_prop in Hp as [Hc Hp].
  apply negb_true_iff in Hc.
  rewrite splitlines_nonbreak, (IH Hp) by assumption.
  now destruct p.
Qed.

(** The lines of a text joined from lines are among those lines. *)
Lemma splitlines_join L l :
  Forall (fun p => forallb (fun c => negb (islinebreak c)) p = true) L ->
  l ∈ splitlines (join nl L) -> l ∈ L.
Proof.
  induction 1 as [|p ps Hp Hps IH]; intros Hl.
  - inversion Hl.
  - destruct ps as [|q ps'].
    + simpl in Hl. rewrite (splitlines_single _ Hp) in Hl.
      destruct p; [inversion Hl|].
      apply list_elem_of_singleton in Hl as ->. left.
    + change (join nl (p :: q :: ps')) with (p ++ 10 :: join nl (q :: ps')) in Hl.
      rewrite (splitlines_line_nl _ _ Hp) in Hl.
      apply elem_of_cons in Hl as [->|Hl]; [left|right; auto].
Qed.

Lemma covers_refl a : covers a a.
Proof. intros l Hl. eauto. Qed.

Lemma covers_trans a b c : covers a b -> covers b c -> covers a c.
Proof.
  intros Hab Hbc l1 Hl1.
  destruct (Hab l1 Hl1) as (l2 & Hl2 & E12).
  destruct (Hbc l2 Hl2) as (l3 & Hl3 & E23).
  exists l3. split; [assumption|congruence].
Qed.

(** Putting a character in front of a text keeps its lines, up to trimming,
    when the character is white space. *)
Lemma covers_cons_space c x : isspace c = true -> covers x (c :: x).
Proof.
  intros Hc l1 Hl1.
  destruct (islinebreak c) eqn:Hb.
  - exists l1. split; [|reflexivity].
    apply splitlines_break; auto.
  - rewrite splitlines_nonbreak by assumption.
    destruct (splitlines x) as [|l0 ls] eqn:Hx; [inversion Hl1|].
    apply elem_of_cons in Hl1 as [->|Hl1].
    + exists (c :: l0). split; [left|].
      unfold strip. simpl. now rewrite Hc.
    + exists l1. split; [now right|reflexivity].
Qed.

Lemma covers_lstrip s : covers (lstrip s) s.
Proof.
  induction s as [|c r IH]; [apply covers_refl|].
  simpl. destruct (isspace c) eqn:Hc; [|apply covers_refl].
  eapply covers_trans; [exact IH|]. now apply covers_cons_space.
Qed.


Lemma rstrip_nil_allspace r : rstrip r = [] -> forallb isspace r = true.
Proof.
  induction r as [|c r IH]; [reflexivity|].
  rewrite rstrip_cons. destruct (rstrip r) eqn:Hr; [|discriminate].
  destruct (isspace c) eqn:Hc; [|discriminate].
  intros _. simpl. rewrite Hc. now apply IH.
Qed.

Lemma allspace_rstrip l : forallb isspace l = true -> rstrip l = [].
Proof.
  induction l as [|c l IH]; [reflexivity|].
  simpl. intros Hl. apply andb_prop in Hl as [Hc Hl].
  now rewrite (IH Hl), Hc.
Qed.

Lemma lines_allspace r l :
  forallb isspace r = true -> l ∈ splitlines r -> forallb isspace l = true.
Proof.
  revert l. induction r as [|c x IH]; intros l Hr Hl; [inversion Hl|].
  simpl in Hr. apply andb_prop in Hr as [Hc Hx].
  destruct (islinebreak c) eqn:Hb.
  - apply splitlines_break in Hl as [->|Hl]; auto.
  - rewrite splitlines_nonbreak in Hl by assumption.
    destruct (splitlines x) as [|l0 ls] eqn:Hsp.
    + apply list_elem_of_singleton in Hl as ->. simpl. now rewrite Hc.
    + apply elem_of_cons in Hl as [->|Hl].
      * simpl. rewrite Hc. apply IH; [assumption|left].
      * apply IH; [assumption|now right].
Qed.

Lemma rstrip_head r d r' : rstrip r = d :: r' -> exists r0, r = d :: r0.
Proof.
  destruct r as [|c r0]; [discriminate|].
  rewrite rstrip_cons. destruct (rstrip r0).
  - destruct (isspace c); [discriminate|]. intros [= ->]. eauto.
  - intros [= ->]. eauto.
Qed.

Lemma splitlines_cons_not_nil c x : splitlines (c :: x) <> [].
Proof.
  destruct (islinebreak c) eqn:Hb.
  - rewrite splitlines_break_list by assumption.
    destruct ((c =? 13) && _) eqn:E; [|discriminate].
    apply andb_prop in E as [_ E]. apply lf_head in E as [x' ->].
    discriminate.
  - rewrite splitlines_nonbreak by assumption.
    destruct (splitlines x); discriminate.
Qed.

(** Right-trimming a text right-trims its last line and drops the blank
    lines after it. *)
Lemma splitlines_rstrip s :
  exists pre rest,
    splitlines s = pre ++ rest /\
    Forall2 (fun l1 l2 => rstrip l1 = rstrip l2) (splitlines (rstrip s)) pre.
Proof.
  induction s as [|c r IH].
  - exists [], []. split; [reflexivity|constructor].
  - destruct IH as (pre & rest & Hsplit & Hall).
    rewrite rstrip_cons. destruct (rstrip r) as [|d r'] eqn:Hr.
    + destruct (isspace c) eqn:Hc.
      * exists [], (splitlines (c :: r)). split; [reflexivity|constructor].
      * assert (islinebreak c = false) as Hb.
        { destruct (islinebreak c) eqn:Hb; [|reflexivity].
          apply linebreak_is_space in Hb. congruence. }
        rewrite (splitlines_nonbreak c r Hb).
        change (splitlines [c]) with (splitlines_from [] [c]). simpl.
        assert ((c =? 13) = false) as ->.
        { destruct (N.eqb_spec c 13) as [->|]; [discriminate Hb|reflexivity]. }
        rewrite Hb. simpl.
        destruct (splitlines r) as [|lb lsb] eqn:Hsp.
        -- exists [[c]], []. split; [reflexivity|].
           constructor; [reflexivity|constructor].
        -- exists [c :: lb], lsb. split; [reflexivity|].
           constructor; [|constructor].
           rewrite (rstrip_cons c lb).
           rewrite (allspace_rstrip lb).
           ++ simpl. now rewrite Hc.
           ++ apply (lines_allspace r).
              ** apply rstrip_nil_allspace, Hr.
              ** rewrite Hsp. left.
    + destruct (rstrip_head _ _ _ Hr) as (r0 & ->).
      destruct (islinebreak c) eqn:Hb.
      * rewrite !(splitlines_break_list c) by assumption. cbv iota.
        match goal with
        | |- context [(c =? 13) && ?b] => destruct ((c =? 13) && b)
        end.
        -- exists pre, rest. split; assumption.
        -- exists ([] :: pre), rest. split; [now rewrite Hsplit|].
           constructor; [reflexivity|assumption].
      * rewrite !(splitlines_nonbreak c) by assumption.
        destruct (splitlines (d :: r')) as [|la lsa] eqn:Ha;
          [now apply splitlines_cons_not_nil in Ha|].
        inversion Hall as [|? lb ? pre' Hab Hall' ]; subst.
        rewrite Hsplit. simpl.
        exists ((c :: lb) :: pre'), rest. split; [reflexivity|].
        constructor; [|assumption].
        now rewrite !rstrip_cons, Hab.
Qed.

Lemma covers_rstrip s : covers (rstrip s) s.
Proof.
  intros l1 Hl1.
  destruct (splitlines_rstrip s) as (pre & rest & Hsplit & Hall).
  apply list_elem_of_lookup in Hl1 as [i Hi].
  destruct (Forall2_lookup_l _ _ _ _ _ Hall Hi) as (l2 & Hl2 & E).
  exists l2. split.
  - rewrite Hsplit. apply elem_of_app. left.
    apply list_elem_of_lookup. eauto.
  - unfold strip. now rewrite <- !lstrip_rstrip, E.
Qed.

Lemma covers_strip s : covers (strip s) s.
Proof.
  unfold strip. eapply covers_trans; [apply covers_rstrip|apply covers_lstrip].
Qed.

End LineFacts.

(** ** The query synthesizer *)


(** After the fence rule ran, no line of the query begins with the marker. *)
Lemma no_marker_line_left text line :
  Py.startswith ticks (Py.strip text) = true ->
  line ∈ Py.splitlines (sql_of_response_text text) ->
  Py.startswith ticks (Py.strip line) = false.
Proof.
  intros Hwrapped Hline. unfold sql_of_response_text in Hline.
  rewrite Hwrapped in Hline.
  destruct (covers_strip _ _ Hline) as (l2 & Hl2 & E).
  rewrite E. apply splitlines_join in Hl2.
  - now apply list_elem_of_filter in Hl2 as [Hkeep _].
  - apply Forall_forall. intros p Hp.
    apply list_elem_of_filter in Hp as [_ Hp].
    eapply splitlines_no_break, Hp.
Qed.

Section SynthesizerFacts.
Context {world response : Type}.
Variable generate_content : Py.str -> M world response.
Variable response_text : response -> outcome Py.str.

Lemma question_to_sql_returns prompt w r w' text :
  generate_content (full_prompt prompt) w = (Ok r, w') ->
  response_text r = Ok text ->
  question_to_sql generate_content response_text prompt w
  = (Ok (sql_of_response_text text), w').
Proof.
  intros Hgen Htext. unfold question_to_sql, mbind, M_bind.
  rewrite Hgen. unfold lift. rewrite Htext. reflexivity.
Qed.


(** C8: when the remote generation call raises (or the response has no
    text to read), question_to_sql raises that very exception to its caller;
    it returns no query text, empty or other. *)
Theorem generation_failure_propagates prompt w e w' :
  generate_content (full_prompt prompt) w = (Raise e, w')
  \/ (exists r, generate_content (full_prompt prompt) w = (Ok r, w')
                /\ response_text r = Raise e) ->
  question_to_sql generate_content response_text prompt w = (Raise e, w')
  /\ forall sql w'',
       question_to_sql generate_content response_text prompt w <> (Ok sql, w'').
Proof.
  intros Hfail.
  assert (question_to_sql generate_content response_text prompt w
          = (Raise e, w')) as Hraise.
  { unfold question_to_sql, mbind, M_bind.
    destruct Hfail as [Hgen|(r & Hgen & Htext)]; rewrite Hgen; [reflexivity|].
    unfold lift. now rewrite Htext. }
  split; [exact Hraise|]. intros sql w''. rewrite Hraise. discriminate.
Qed.

(** C10: the fence rule applies only when the trimmed response begins with
    the marker: then every line whose form without leading white space
    begins with the marker is removed, also when text follows the marker on
    that line; a trimmed response that does not begin with the marker is
    returned as it is, markers inside it included. *)
Theorem fence_rule_only_for_leading_marker prompt w r w' text :
  generate_content (full_prompt prompt) w = (Ok r, w') ->
  response_text r = Ok text ->
  exists sql,
    question_to_sql generate_content response_text prompt w = (Ok sql, w')
    /\ (Py.startswith ticks (Py.strip text) = true ->
        sql = Py.strip (Py.join Py.nl
                (filter (fun line => Py.startswith ticks (Py.lstrip line) = false)
                        (Py.splitlines (Py.strip text)))))
    /\ (Py.startswith ticks (Py.strip text) = false -> sql = Py.strip text)
    /\ (forall lead rest, forallb Py.isspace lead = true ->
          Py.startswith ticks (Py.lstrip (lead ++ ticks ++ rest)) = true).
Proof.
  intros Hgen Htext. exists (sql_of_response_text text).
  split; [now apply (question_to_sql_returns prompt w r w' text)|].
  unfold sql_of_response_text. repeat split.
  - intros ->. f_equal. f_equal. apply list_filter_iff.
    intros line. now rewrite startswith_ticks_strip.
  - intros ->. apply strip_idem.
  - intros lead rest Hlead. induction lead as [|c lead IH]; [reflexivity|].
    simpl in Hlead. apply andb_prop in Hlead as [Hc Hlead].
    simpl. rewrite Hc. now apply IH.
Qed.

End SynthesizerFacts.

(** ** Frames *)

Section FrameFacts.
Context `{Runtime}.

Lemma series_len_column_of_objects vs :
  series_len (column_of_objects vs) = length vs.
Proof.
  unfold column_of_objects, series_len.
  repeat match goal with |- context [if ?b then _ else _] => destruct b end;
    simpl; now rewrite ?length_map.
Qed.

(** A frame built from fetched rows has the given column names, one row per
    fetched row, and is well formed. *)
Lemma DataFrame_new_ok rows names df :
  DataFrame_new rows names = Ok df ->
  df_columns df = names /\ df_nrows df = length rows /\ frame_ok df = true.
Proof.
  unfold DataFrame_new. destruct rows as [|r rs].
  - intros [= <-]. repeat split. unfold frame_ok. simpl.
    rewrite length_map, Nat.eqb_refl. simpl.
    rewrite andb_true_iff. split; apply forallb_forall; intros s Hs;
      apply in_map_iff in Hs as (? & <- & _); reflexivity.
  - destruct (rows_width (r :: rs) =? length names)%nat; [|discriminate].
    intros [= <-]. repeat split. unfold frame_ok. simpl.
    rewrite length_map, length_seq, Nat.eqb_refl. simpl.
    rewrite andb_true_r. apply forallb_forall. intros s Hs.
    apply in_map_iff in Hs as (j & <- & _).
    rewrite series_len_column_of_objects. simpl. rewrite length_map.
    apply Nat.eqb_refl.
Qed.

(** In a well-formed frame a numeric column has a first cell. *)
Lemma numeric_column_not_empty df s :
  frame_ok df = true -> s ∈ df_data df -> numeric_series s = true ->
  exists v rest, series_cells s = v :: rest /\ df_nrows df <> 0%nat.
Proof.
  unfold frame_ok. rewrite !andb_true_iff, orb_true_iff.
  intros [[_ Hlen] Hnum] Hs Hnumeric.
  rewrite forallb_forall in Hlen. apply list_elem_of_In in Hs.
  specialize (Hlen s Hs). apply Nat.eqb_eq in Hlen.
  destruct Hnum as [Hpos|Hnone].
  - apply Nat.ltb_lt in Hpos. unfold series_len in Hlen.
    destruct (series_cells s) as [|v rest]; [simpl in Hlen; lia|].
    exists v, rest. split; [reflexivity|lia].
  - rewrite forallb_forall in Hnone. specialize (Hnone s Hs).
    rewrite Hnumeric in Hnone. discriminate.
Qed.

End FrameFacts.

(** ** The query executor *)

Section ExecutorFacts.
Context `{Runtime} {world cursor : Type}.
Variable conn_cursor : M world cursor.
Variable cursor_execute : cursor -> Py.str -> M world unit.
Variable cursor_fetchall : cursor -> M world (list (list value)).
Variable cursor_description : cursor -> world -> option (list Py.str).

Local Abbreviation fetch :=
  (fetch_frame conn_cursor cursor_execute cursor_fetchall cursor_description).
Local Abbreviation execute :=
  (execute_sql conn_cursor cursor_execute cursor_fetchall cursor_description).

Lemma execute_sql_cases query w :
  execute query w =
  match fetch query w with
  | (Ok df, w') => (Ok (inl df), w')
  | (Raise e, w') => (Ok (inr (Py.lit "Error: " ++ exn_msg e)), w')
  end.
Proof.
  unfold execute_sql, try_except, mbind, M_bind.
  destruct (fetch query w) as [[df|e] w']; reflexivity.
Qed.


(** A frame comes out of the guarded region only when every call on the
    connection returned and the statement had result columns. *)
Lemma fetch_frame_ok query w df w' :
  fetch query w = (Ok df, w') ->
  exists c w1 w2 rows names,
    conn_cursor w = (Ok c, w1)
    /\ cursor_execute c query w1 = (Ok tt, w2)
    /\ cursor_fetchall c w2 = (Ok rows, w')
    /\ cursor_description c w' = Some names
    /\ DataFrame_new rows names = Ok df.
Proof.
  unfold fetch_frame, mbind, M_bind, description_names, lift.
  destruct (conn_cursor w) as [[c|?] w1] eqn:Hc; [|discriminate].
  destruct (cursor_execute c query w1) as [[[]|?] w2] eqn:He; [|discriminate].
  destruct (cursor_fetchall c w2) as [[rows|?] w3] eqn:Hf; [|discriminate].
  destruct (cursor_description c w3) as [names|] eqn:Hd; [|discriminate].
  destruct (DataFrame_new rows names) as [df'|?] eqn:Hn; [|discriminate].
  intros [= <- <-]. exists c, w1, w2, rows, names. auto.
Qed.

(** Every frame that comes out of [execute_sql] is well formed. *)
Lemma execute_sql_frame_ok sql w df w' :
  execute sql w = (Ok (inl df), w') -> frame_ok df = true.
Proof.
  rewrite execute_sql_cases.
  destruct (fetch sql w) as [[df'|e] w''] eqn:Hf; [|discriminate].
  intros [= <- <-].
  destruct (fetch_frame_ok _ _ _ _ Hf) as (? & ? & ? & ? & ? & _ & _ & _ & _ & Hn).
  now destruct (DataFrame_new_ok _ _ _ Hn) as (_ & _ & ?).
Qed.

(** C1 (as amended): execute_sql never raises: every call returns either a
    frame, built from the rows the engine returned under the engine's column
    names, or an error text made of "Error: " and the message of the
    exception caught in the guarded region; whenever the engine itself
    faults on the statement (as on a syntactically invalid one) that message
    is the engine's. *)
Theorem execute_sql_never_raises query w :
  (exists r w',
      execute query w = (Ok r, w')
      /\ match r with
         | inl df =>
             exists c w1 w2 rows names,
               conn_cursor w = (Ok c, w1)
               /\ cursor_execute c query w1 = (Ok tt, w2)
               /\ cursor_fetchall c w2 = (Ok rows, w')
               /\ cursor_description c w' = Some names
               /\ DataFrame_new rows names = Ok df
               /\ df_columns df = names /\ df_nrows df = length rows
         | inr err =>
             exists e, fetch query w = (Raise e, w')
                       /\ err = Py.lit "Error: " ++ exn_msg e
         end)
  /\ (forall c w1 e w2,
        conn_cursor w = (Ok c, w1) ->
        cursor_execute c query w1 = (Raise e, w2) ->
        execute query w = (Ok (inr (Py.lit "Error: " ++ exn_msg e)), w2)).
Proof.
  split.
  - rewrite execute_sql_cases.
    destruct (fetch query w) as [[df|e] w'] eqn:Hf.
    + exists (inl df), w'. split; [reflexivity|].
      destruct (fetch_frame_ok _ _ _ _ Hf) as (c & w1 & w2 & rows & names & ? & ? & ? & ? & Hn).
      exists c, w1, w2, rows, names.
      destruct (DataFrame_new_ok _ _ _ Hn) as (? & ? & _). auto 10.
    + exists (inr (Py.lit "Error: " ++ exn_msg e)), w'. split; [reflexivity|].
      exists e. auto.
  - intros c w1 e w2 Hc He. rewrite execute_sql_cases.
    unfold fetch_frame, mbind, M_bind. now rewrite Hc, He.
Qed.

(** C9: a statement that the store executes without fault but that has no
    result columns makes execute_sql return an error text, the one of the
    TypeError raised when the column list is built; the world that comes
    back is the one the engine left after running the statement, not the
    one before it. *)
Theorem statement_without_columns_is_an_error query w c w1 w2 rows w3 :
  conn_cursor w = (Ok c, w1) ->
  cursor_execute c query w1 = (Ok tt, w2) ->
  cursor_fetchall c w2 = (Ok rows, w3) ->
  cursor_description c w3 = None ->
  execute query w
  = (Ok (inr (Py.lit "Error: 'NoneType' object is not iterable")), w3).
Proof.
  intros Hc He Hf Hd. rewrite execute_sql_cases.
  unfold fetch_frame, mbind, M_bind, description_names.
  now rewrite Hc, He, Hf, Hd.
Qed.

End ExecutorFacts.

(** ** The plot *)

Section PlotFacts.
Context `{Backend}.

(** Lines 102-104: the canvas is created before it is drawn, so a renderer
    that raises leaves it in the plotting area, neither drawn nor packed. *)
Lemma show_figure_run fig children :
  show_figure fig children =
  match canvas_draw fig with
  | Ok _ =>
      (Ok tt,
       children ++ [ {| cv_figure := fig; cv_drawn := true; cv_packed := true |} ])
  | Raise e =>
      (Raise e,
       children ++ [ {| cv_figure := fig; cv_drawn := false; cv_packed := false |} ])
  end.
Proof.
  unfold show_figure, mbind, M_bind, new_canvas, draw_last, pack_last.
  rewrite reverse_snoc. cbn [cv_figure cv_drawn cv_packed].
  destruct (canvas_draw fig) as [[]|e]; [|reflexivity].
  rewrite reverse_snoc, !reverse_involutive. reflexivity.
Qed.

Lemma plot_empty df children :
  df_empty df = true -> plot_if_possible (inl df) children = (Ok tt, []).
Proof.
  intros He. unfold plot_if_possible, mbind, M_bind, clear_plot_frame.
  now rewrite He.
Qed.

Lemma plot_not_empty df children :
  df_empty df = false ->
  plot_if_possible (inl df) children =
  match draw_on_axes df new_axes with
  | Ok ax =>
      match canvas_draw (figure_of ax) with
      | Ok _ => (Ok tt, shown ax)
      | Raise e => (Raise e, refused ax)
      end
  | Raise e => (Raise e, [])
  end.
Proof.
  intros He. unfold plot_if_possible, mbind, M_bind, clear_plot_frame, lift.
  rewrite He. cbn [negb].
  destruct (draw_on_axes df new_axes) as [ax|e]; [|reflexivity].
  rewrite show_figure_run. reflexivity.
Qed.

(** The loop of a cast returns when every cell can be cast, with the texts
    in the order of the cells. *)
Lemma traverse_Forall2 {A B : Type} (f : A -> outcome B) xs ys :
  traverse f xs = Ok ys <-> Forall2 (fun x y => f x = Ok y) xs ys.
Proof.
  revert ys. induction xs as [|x xs IH]; intros ys; simpl.
  - split.
    + intros [= <-]. constructor.
    + intros Hall. now inversion Hall.
  - destruct (f x) as [y|e] eqn:Hx.
    + destruct (traverse f xs) as [ys'|e] eqn:Hxs.
      * split.
        -- intros [= <-]. constructor; [assumption|]. now apply IH.
        -- intros Hall. inversion Hall as [|? y' ? ys'' Hy Hrest]; subst.
           apply IH in Hrest. congruence.
      * split; [discriminate|].
        intros Hall. inversion Hall as [|? y' ? ys'' Hy Hrest]; subst.
        apply IH in Hrest. discriminate.
    + split; [discriminate|].
      intros Hall. inversion Hall; subst. congruence.
Qed.

(** It raises what the first cell that cannot be cast raises. *)
Lemma traverse_raise {A B : Type} (f : A -> outcome B) xs e :
  traverse f xs = Raise e ->
  exists i x, xs !! i = Some x /\ f x = Raise e
              /\ forall j x', (j < i)%nat -> xs !! j = Some x' ->
                              exists y, f x' = Ok y.
Proof.
  induction xs as [|x xs IH]; simpl; [discriminate|].
  destruct (f x) as [y|e'] eqn:Hx.
  - destruct (traverse f xs) as [ys'|e'] eqn:Hxs; [discriminate|].
    intros [= ->]. destruct (IH eq_refl) as (i & x0 & Hi & Hraise & Hbefore).
    exists (S i), x0. repeat split; [assumption|assumption|].
    intros [|j] x' Hlt Hj.
    + injection Hj as <-. eauto.
    + apply (Hbefore j); [lia|assumption].
  - intros [= ->]. exists 0%nat, x. repeat split; [assumption|].
    intros j x' Hlt. lia.
Qed.

(** Only a [bytes] can fail to be cast. *)
Lemma cast_str_not_bytes v :
  (forall b, v <> VBytes b) -> cast_str v = Ok (py_str v).
Proof. intros Hv. destruct v; try reflexivity. now destruct (Hv b). Qed.

Lemma cast_str_raises v e :
  cast_str v = Raise e -> exists b, v = VBytes b /\ Py.decode_utf8 b = None.
Proof.
  destruct v; try discriminate. simpl.
  destruct (Py.decode_utf8 b) eqn:Hb; [discriminate|]. eauto.
Qed.

Lemma columns_named_two df x y xs ys :
  df_columns df = [x; y] -> df_data df = [xs; ys] -> x <> y ->
  columns_named df x = [xs] /\ columns_named df y = [ys].
Proof.
  intros Hc Hd Hne. unfold columns_named. rewrite Hc, Hd. simpl.
  repeat case_decide; try congruence. auto.
Qed.

(** Two columns of different names. *)
Lemma draw_two_columns df x y xs ys ax :
  df_columns df = [x; y] -> df_data df = [xs; ys] -> x <> y ->
  draw_on_axes df ax =
  if numeric_series ys then
    match traverse cast_str (series_cells xs) with
    | Ok xtext =>
        Ok (grid "--" (1 # 2)
              (tick_params_x 45
                 (set_ylabel y
                    (set_xlabel x
                       (set_title (y ++ Py.lit " by " ++ x)
                          (ax_plot (Arr1 (map VStr xtext))
                             (Arr1 (series_cells ys)) "blue" "o" (Some 2%Z) ax))))))
    | Raise e => Raise e
    end
  else Ok ax.
Proof.
  intros Hc Hd Hne.
  destruct (columns_named_two df x y xs ys Hc Hd Hne) as [Hx Hy].
  unfold draw_on_axes, df_ncols, getitem. rewrite Hc. simpl.
  rewrite Hy. simpl. destruct (numeric_series ys); [|reflexivity].
  rewrite Hx. unfold astype_str, series_astype_str.
  now destruct (traverse cast_str (series_cells xs)).
Qed.

(** Two columns of one name: [df[y_col]] is a frame, nothing is drawn. *)
Lemma draw_two_columns_same_name df x xs ys ax :
  df_columns df = [x; x] -> df_data df = [xs; ys] ->
  draw_on_axes df ax = Ok ax.
Proof.
  intros Hc Hd. unfold draw_on_axes, df_ncols, getitem, columns_named.
  rewrite Hc, Hd. simpl. case_decide; [reflexivity|congruence].
Qed.

Lemma draw_one_column df label s ax :
  df_columns df = [label] -> df_data df = [s] ->
  draw_on_axes df ax =
  if numeric_series s then
    match series_cells s with
    | v :: _ =>
        Ok (set_title label
              (ax_plot (Arr1 [VStr label]) (Arr1 [v]) "red" "o" None ax))
    | [] => Raise (Exn "IndexError" (Py.lit "index out of bounds"))
    end
  else Ok ax.
Proof.
  intros Hc Hd. unfold draw_on_axes, df_ncols, iloc_col, iloc_cell.
  rewrite Hc, Hd. simpl. destruct (numeric_series s); [|reflexivity].
  now destruct (series_cells s).
Qed.

Lemma draw_other_width df ax :
  df_ncols df <> 2%nat -> df_ncols df <> 1%nat -> draw_on_axes df ax = Ok ax.
Proof.
  intros H2 H1. unfold draw_on_axes.
  destruct (Nat.eqb_spec (df_ncols df) 2); [contradiction|].
  destruct (Nat.eqb_spec (df_ncols df) 1); [contradiction|]. reflexivity.
Qed.

Lemma frame_ok_lengths df :
  frame_ok df = true -> length (df_data df) = length (df_columns df).
Proof.
  unfold frame_ok. rewrite !andb_true_iff. intros [[Hl _] _].
  now apply Nat.eqb_eq.
Qed.

Lemma frame_not_empty df s :
  frame_ok df = true -> s ∈ df_data df -> numeric_series s = true ->
  df_empty df = false.
Proof.
  intros Hok Hs Hnum.
  destruct (numeric_column_not_empty df s Hok Hs Hnum) as (v & rest & _ & Hrows).
  pose proof (frame_ok_lengths df Hok) as Hlen.
  unfold df_empty, df_ncols. rewrite <- Hlen.
  destruct (df_nrows df); [contradiction|].
  destruct (df_data df); [inversion Hs|reflexivity].
Qed.

(** Outside the two rules nothing is put on the axes. *)
Lemma draw_nothing df ax :
  frame_ok df = true ->
  two_column_rule df = false -> one_column_rule df = false ->
  draw_on_axes df ax = Ok ax.
Proof.
  intros Hok H2 H1. pose proof (frame_ok_lengths df Hok) as Hlen.
  unfold two_column_rule in H2. unfold one_column_rule in H1.
  destruct (df_columns df) as [|x [|y [|z cols]]] eqn:Hc;
    destruct (df_data df) as [|xs [|ys [|zs data]]] eqn:Hd;
    try discriminate Hlen.
  - apply draw_other_width; unfold df_ncols; rewrite Hc; simpl; lia.
  - rewrite (draw_one_column df x xs ax Hc Hd). now rewrite H1.
  - destruct (decide (x = y)) as [<-|Hne].
    + now apply (draw_two_columns_same_name df x xs ys).
    + rewrite (draw_two_columns df x y xs ys ax Hc Hd Hne). now rewrite H2.
  - apply draw_other_width; unfold df_ncols; rewrite Hc; simpl; lia.
Qed.

Lemma plot_nothing df children :
  frame_ok df = true ->
  two_column_rule df = false -> one_column_rule df = false ->
  plot_if_possible (inl df) children
  = (Ok tt, if df_empty df then [] else shown new_axes).
Proof.
  intros Hok H2 H1. destruct (df_empty df) eqn:He.
  - now apply plot_empty.
  - rewrite (plot_not_empty df children He).
    rewrite (draw_nothing df new_axes Hok H2 H1).
    now rewrite canvas_draw_blank.
Qed.

(** The two-column chart: what is handed to the renderer. *)
Lemma plot_two_columns df children x y xs ys :
  frame_ok df = true ->
  df_columns df = [x; y] -> df_data df = [xs; ys] -> x <> y ->
  numeric_series ys = true ->
  plot_if_possible (inl df) children =
  match traverse cast_str (series_cells xs) with
  | Ok xtext =>
      match canvas_draw (figure_of (two_column_axes x y xtext ys)) with
      | Ok _ => (Ok tt, shown (two_column_axes x y xtext ys))
      | Raise e => (Raise e, refused (two_column_axes x y xtext ys))
      end
  | Raise e => (Raise e, [])
  end.
Proof.
  intros Hok Hc Hd Hne Hnum.
  rewrite plot_not_empty.
  - rewrite (draw_two_columns df x y xs ys new_axes Hc Hd Hne), Hnum.
    now destruct (traverse cast_str (series_cells xs)).
  - apply (frame_not_empty df ys Hok); [rewrite Hd; set_solver|assumption].
Qed.

(** The single-value chart. *)
Lemma plot_one_column df children label s :
  frame_ok df = true ->
  df_columns df = [label] -> df_data df = [s] ->
  numeric_series s = true ->
  exists v rest,
    series_cells s = v :: rest
    /\ plot_if_possible (inl df) children =
       match canvas_draw (figure_of (one_column_axes label v)) with
       | Ok _ => (Ok tt, shown (one_column_axes label v))
       | Raise e => (Raise e, refused (one_column_axes label v))
       end.
Proof.
  intros Hok Hc Hd Hnum.
  destruct (numeric_column_not_empty df s Hok) as (v & rest & Hv & Hrows);
    [rewrite Hd; set_solver|assumption|].
  exists v, rest. split; [assumption|].
  rewrite plot_not_empty.
  - rewrite (draw_one_column df label s new_axes Hc Hd), Hnum, Hv.
    reflexivity.
  - apply (frame_not_empty df s Hok); [rewrite Hd; set_solver|assumption].
Qed.

(** A title or a label that is not valid mathtext: the renderer refuses the
    figure, and its canvas stays in the plotting area, neither drawn nor
    packed. *)
Lemma plot_two_columns_bad_label df children x y xs ys xtext :
  frame_ok df = true ->
  df_columns df = [x; y] -> df_data df = [xs; ys] -> x <> y ->
  numeric_series ys = true ->
  traverse cast_str (series_cells xs) = Ok xtext ->
  x = bad_mathtext \/ y = bad_mathtext ->
  exists e,
    plot_if_possible (inl df) children
    = (Raise e, refused (two_column_axes x y xtext ys)).
Proof.
  intros Hok Hc Hd Hne Hnum Hcast Hbad.
  rewrite (plot_two_columns df children x y xs ys Hok Hc Hd Hne Hnum), Hcast.
  destruct (canvas_draw_bad_mathtext
              (figure_of (two_column_axes x y xtext ys))
              (two_column_axes x y xtext ys)) as [e ->].
  - apply list_elem_of_singleton. reflexivity.
  - simpl. tauto.
  - eauto.
Qed.

Lemma plot_one_column_bad_label df children s :
  frame_ok df = true ->
  df_columns df = [bad_mathtext] -> df_data df = [s] ->
  numeric_series s = true ->
  exists e v rest,
    series_cells s = v :: rest
    /\ plot_if_possible (inl df) children
       = (Raise e, refused (one_column_axes bad_mathtext v)).
Proof.
  intros Hok Hc Hd Hnum.
  destruct (plot_one_column df children bad_mathtext s Hok Hc Hd Hnum)
    as (v & rest & Hv & ->).
  destruct (canvas_draw_bad_mathtext
              (figure_of (one_column_axes bad_mathtext v))
              (one_column_axes bad_mathtext v)) as [e ->].
  - apply list_elem_of_singleton. reflexivity.
  - simpl. tauto.
  - eauto.
Qed.

(** C2 (as amended): for every Result Set with exactly two columns of
    different names whose second column is numeric, when every cell of the
    first column can be cast to text (a cell that is no byte string always
    can, and becomes its string form) and the renderer draws the figure,
    plot shows a chart titled "<col2> by <col1>", the texts of the first
    column as the x sequence in row order and the second column as the y
    values; for every Result Set that has neither exactly two columns with a
    numeric second column nor exactly one column, numeric, nothing is
    plotted: no line and no title. *)
Theorem plot_two_column_chart df children :
  frame_ok df = true ->
  (forall x y xs ys xtext,
      df_columns df = [x; y] -> df_data df = [xs; ys] -> x <> y ->
      numeric_series ys = true ->
      Forall2 (fun v text => cast_str v = Ok text) (series_cells xs) xtext ->
      canvas_draw (figure_of (two_column_axes x y xtext ys)) = Ok tt ->
      plot_if_possible (inl df) children
      = (Ok tt,
         [ {| cv_figure :=
                {| fig_figsize := (6, 4)%Z; fig_dpi := 100;
                   fig_axes :=
                     [ {| ax_lines :=
                            [ {| ln_x := Arr1 (map VStr xtext);
                                 ln_y := Arr1 (series_cells ys);
                                 ln_color := "blue"; ln_marker := "o";
                                 ln_linewidth := Some 2%Z |} ];
                          ax_title := y ++ Py.lit " by " ++ x;
                          ax_xlabel := x; ax_ylabel := y;
                          ax_xtick_rotation := Some 45%Z;
                          ax_grid := Some ("--"%string, 1 # 2) |} ] |};
              cv_drawn := true; cv_packed := true |} ])
      /\ length xtext = df_nrows df
      /\ length (series_cells ys) = df_nrows df
      /\ (forall i v, series_cells xs !! i = Some v -> (forall b, v <> VBytes b) ->
                      xtext !! i = Some (py_str v)))
  /\ (two_column_rule df = false -> one_column_rule df = false ->
      exists canvases,
        plot_if_possible (inl df) children = (Ok tt, canvases)
        /\ forall cv ax, cv ∈ canvases -> ax ∈ fig_axes (cv_figure cv) ->
                         ax_lines ax = [] /\ ax_title ax = []).
Proof.
  intros Hok. split.
  - intros x y xs ys xtext Hc Hd Hne Hnum Hcast Hdraw.
    rewrite (plot_two_columns df children x y xs ys Hok Hc Hd Hne Hnum).
    rewrite (proj2 (traverse_Forall2 cast_str _ _) Hcast), Hdraw.
    split; [reflexivity|].
    assert (forall s, s ∈ df_data df -> series_len s = df_nrows df) as Hlen.
    { intros s Hs. unfold frame_ok in Hok. rewrite !andb_true_iff in Hok.
      destruct Hok as [[_ Hall] _]. rewrite forallb_forall in Hall.
      apply Nat.eqb_eq, Hall. now apply list_elem_of_In. }
    split; [|split].
    + rewrite <- (Forall2_length _ _ _ Hcast).
      apply (Hlen xs). rewrite Hd. set_solver.
    + apply (Hlen ys). rewrite Hd. set_solver.
    + intros i v Hi Hv.
      destruct (Forall2_lookup_l _ _ _ _ _ Hcast Hi) as (text & Ht & Hcv).
      rewrite (cast_str_not_bytes v Hv) in Hcv. congruence.
  - intros H2 H1. rewrite (plot_nothing df children Hok H2 H1).
    eexists. split; [reflexivity|].
    intros cv ax Hcv Hax. destruct (df_empty df); [inversion Hcv|].
    apply list_elem_of_singleton in Hcv as ->. simpl in Hax.
    apply list_elem_of_singleton in Hax as ->. auto.
Qed.

(** C5 (as amended): for every empty Result Set plot shows nothing; for
    every Result Set with exactly one column, numeric, when the renderer
    draws the figure, plot shows a chart with a single marker, the value of
    the first row, labelled and titled with the column name; for every Result
    Set that matches neither the two-column-numeric rule nor the
    one-column-numeric rule it never raises and plots nothing (no line, no
    title): the plotting area is left empty when the Result Set is empty and
    otherwise holds the figure with its blank axes. *)
Theorem plot_single_value_or_nothing df children :
  frame_ok df = true ->
  (df_empty df = true -> plot_if_possible (inl df) children = (Ok tt, []))
  /\ (forall label s,
        df_columns df = [label] -> df_data df = [s] ->
        numeric_series s = true ->
        exists v rest,
          series_cells s = v :: rest
          /\ (canvas_draw (figure_of (one_column_axes label v)) = Ok tt ->
              plot_if_possible (inl df) children
              = (Ok tt,
                 [ {| cv_figure :=
                        {| fig_figsize := (6, 4)%Z; fig_dpi := 100;
                           fig_axes :=
                             [ {| ax_lines :=
                                    [ {| ln_x := Arr1 [VStr label]; ln_y := Arr1 [v];
                                         ln_color := "red"; ln_marker := "o";
                                         ln_linewidth := None |} ];
                                  ax_title := label;
                                  ax_xlabel := []; ax_ylabel := [];
                                  ax_xtick_rotation := None; ax_grid := None |} ] |};
                      cv_drawn := true; cv_packed := true |} ])))
  /\ (two_column_rule df = false -> one_column_rule df = false ->
      plot_if_possible (inl df) children
      = (Ok tt,
         if df_empty df then []
         else [ {| cv_figure := {| fig_figsize := (6, 4)%Z; fig_dpi := 100;
                                   fig_axes := [new_axes] |};
                   cv_drawn := true; cv_packed := true |} ])).
Proof.
  intros Hok. repeat split.
  - now apply plot_empty.
  - intros label s Hc Hd Hnum.
    destruct (plot_one_column df children label s Hok Hc Hd Hnum)
      as (v & rest & Hv & Hplot).
    exists v, rest. split; [assumption|].
    intros Hdraw. now rewrite Hplot, Hdraw.
  - now apply plot_nothing.
Qed.

(** What plot fails on: a byte string of the first of two columns that is
    not UTF-8, and a figure the renderer refuses. *)
Lemma plot_cases df children :
  frame_ok df = true ->
  plot_if_possible (inl df) children = (Ok tt, [])
  \/ (exists x y xs ys e,
        df_columns df = [x; y] /\ df_data df = [xs; ys]
        /\ traverse cast_str (series_cells xs) = Raise e
        /\ plot_if_possible (inl df) children = (Raise e, []))
  \/ (exists ax,
        plot_if_possible (inl df) children =
        match canvas_draw (figure_of ax) with
        | Ok _ => (Ok tt, shown ax)
        | Raise e => (Raise e, refused ax)
        end
        /\ (ax = new_axes
            \/ (exists x y xs ys xtext,
                  df_columns df = [x; y] /\ df_data df = [xs; ys]
                  /\ traverse cast_str (series_cells xs) = Ok xtext
                  /\ ax = two_column_axes x y xtext ys)
            \/ (exists label s v rest,
                  df_columns df = [label] /\ df_data df = [s]
                  /\ series_cells s = v :: rest
                  /\ ax = one_column_axes label v))).
Proof.
  intros Hok.
  destruct (two_column_rule df) eqn:H2; [|destruct (one_column_rule df) eqn:H1].
  - unfold two_column_rule in H2.
    destruct (df_columns df) as [|x [|y [|]]] eqn:Hc; try discriminate.
    destruct (df_data df) as [|xs [|ys [|]]] eqn:Hd; try discriminate.
    destruct (decide (x = y)) as [<-|Hne].
    + right. right. exists new_axes. split; [|now left].
      rewrite plot_not_empty.
      * now rewrite (draw_two_columns_same_name df x xs ys new_axes Hc Hd).
      * apply (frame_not_empty df ys Hok); [rewrite Hd; set_solver|assumption].
    + rewrite (plot_two_columns df children x y xs ys Hok Hc Hd Hne H2).
      destruct (traverse cast_str (series_cells xs)) as [xtext|e] eqn:Hcast.
      * right. right. eexists. split; [reflexivity|].
        right. left. exists x, y, xs, ys, xtext. auto.
      * right. left. exists x, y, xs, ys, e. auto.
  - unfold one_column_rule in H1.
    destruct (df_columns df) as [|x [|]] eqn:Hc; try discriminate.
    destruct (df_data df) as [|xs [|]] eqn:Hd; try discriminate.
    destruct (plot_one_column df children x xs Hok Hc Hd H1) as (v & rest & Hv & ->).
    right. right. eexists. split; [reflexivity|].
    right. right. exists x, xs, v, rest. auto.
  - rewrite (plot_nothing df children Hok H2 H1).
    destruct (df_empty df); [now left|].
    right. right. exists new_axes. split; [|now left].
    now rewrite canvas_draw_blank.
Qed.

End PlotFacts.

(** ** Records *)

Section RecordFacts.
Context `{Runtime}.

Lemma to_dict_records_length df :
  length (to_dict_records df) = df_nrows df.
Proof. unfold to_dict_records, df_rows. now rewrite !length_map, length_seq. Qed.

Lemma to_dict_records_lookup df i :
  (i < df_nrows df)%nat ->
  to_dict_records df !! i = Some (dict_of_zip (df_columns df) (df_row df i)).
Proof.
  intros Hi. unfold to_dict_records, df_rows.
  rewrite !list_lookup_fmap, lookup_seq_lt by assumption. reflexivity.
Qed.

Lemma foldl_insert_absent (l : list (Py.str * value)) :
  forall (m : gmap Py.str value) c,
  (forall j v, l !! j <> Some (c, v)) ->
  foldl (fun m kv => <[kv.1 := kv.2]> m) m l !! c = m !! c.
Proof.
  induction l as [|[k0 v0] l IH]; intros m c Habs; [reflexivity|].
  simpl. rewrite IH.
  - apply lookup_insert_ne. intros ->. now apply (Habs 0%nat v0).
  - intros j v. apply (Habs (S j) v).
Qed.

Lemma foldl_insert_last (l : list (Py.str * value)) :
  forall (m : gmap Py.str value) j c v,
  l !! j = Some (c, v) ->
  (forall j' v', (j < j')%nat -> l !! j' <> Some (c, v')) ->
  foldl (fun m kv => <[kv.1 := kv.2]> m) m l !! c = Some v.
Proof.
  induction l as [|[k0 v0] l IH]; intros m j c v Hj Hlast; [discriminate|].
  destruct j as [|j]; simpl in *.
  - injection Hj as -> ->. rewrite foldl_insert_absent.
    + apply lookup_insert_eq.
    + intros j v'. apply (Hlast (S j) v'). lia.
  - apply (IH _ j); [assumption|].
    intros j' v' Hlt. apply (Hlast (S j') v'). lia.
Qed.

(** The record of row [i] maps a column name to the cell of that row in the
    last column of that name. *)
Lemma record_lookup df i j c s v :
  frame_ok df = true ->
  df_columns df !! j = Some c ->
  (forall j', (j < j')%nat -> df_columns df !! j' <> Some c) ->
  df_data df !! j = Some s ->
  series_cells s !! i = Some v ->
  exists record, to_dict_records df !! i = Some record /\ record !! c = Some v.
Proof.
  intros Hok Hc Hlast Hs Hv.
  assert (i < df_nrows df)%nat as Hi.
  { unfold frame_ok in Hok. rewrite !andb_true_iff in Hok.
    destruct Hok as [[_ Hlen] _]. rewrite forallb_forall in Hlen.
    specialize (Hlen s). rewrite Nat.eqb_eq in Hlen. rewrite <- Hlen.
    - unfold series_len. now apply lookup_lt_Some in Hv.
    - apply list_elem_of_In, list_elem_of_lookup. eauto. }
  eexists. split; [now apply to_dict_records_lookup|].
  unfold dict_of_zip. apply (foldl_insert_last _ _ j).
  - apply lookup_zip_with_Some. exists c, v. repeat split; [assumption|].
    unfold df_row. rewrite list_lookup_fmap, Hs. simpl. now rewrite Hv.
  - intros j' v' Hlt Hj'. apply lookup_zip_with_Some in Hj' as (c' & ? & [= <- <-] & Hc' & _).
    now apply (Hlast j').
Qed.

Lemma dom_foldl_insert (l : list (Py.str * value)) :
  forall m : gmap Py.str value,
  dom (foldl (fun m kv => <[kv.1 := kv.2]> m) m l)
  = dom m ∪ list_to_set (l.*1).
Proof.
  induction l as [|[k v] l IH]; intros m; simpl.
  - now rewrite (right_id_L ∅ (∪)).
  - rewrite IH, dom_insert_L, (comm_L (∪) {[k]} (dom m)).
    now rewrite <- (assoc_L (∪)).
Qed.

Lemma df_row_length df i : length (df_row df i) = length (df_data df).
Proof. unfold df_row. apply length_map. Qed.

(** The record of a row: its keys are the column names, and it holds, for a
    name, the cell of the row in the last column of that name. *)
Lemma record_content df i :
  frame_ok df = true -> (i < df_nrows df)%nat ->
  exists record,
    to_dict_records df !! i = Some record
    /\ dom record = list_to_set (df_columns df)
    /\ forall j c s v,
         df_columns df !! j = Some c ->
         (forall j', (j < j')%nat -> df_columns df !! j' <> Some c) ->
         df_data df !! j = Some s ->
         series_cells s !! i = Some v ->
         record !! c = Some v.
Proof.
  intros Hok Hi. eexists. split; [now apply to_dict_records_lookup|]. split.
  - unfold dict_of_zip. rewrite dom_foldl_insert, dom_empty_L, fst_zip.
    + apply (left_id_L ∅ (∪)).
    + rewrite df_row_length, (frame_ok_lengths df Hok). lia.
  - intros j c s v Hc Hlast Hs Hv.
    destruct (record_lookup df i j c s v Hok Hc Hlast Hs Hv) as (rec & Hrec & Hlook).
    rewrite (to_dict_records_lookup df i Hi) in Hrec. now injection Hrec as <-.
Qed.

End RecordFacts.

(** ** The HTTP handler *)

Section ApiFacts.
Context `{Backend} {world response cursor : Type}.
Variable generate_content : Py.str -> M world response.
Variable response_text : response -> outcome Py.str.
Variable conn_cursor : M world cursor.
Variable cursor_execute : cursor -> Py.str -> M world unit.
Variable cursor_fetchall : cursor -> M world (list (list value)).
Variable cursor_description : cursor -> world -> option (list Py.str).

Local Abbreviation synthesize :=
  (question_to_sql generate_content response_text).
Local Abbreviation execute :=
  (execute_sql conn_cursor cursor_execute cursor_fetchall cursor_description).
Local Abbreviation ask :=
  (api_ask generate_content response_text conn_cursor cursor_execute
     cursor_fetchall cursor_description).
Local Abbreviation post :=
  (post_ask generate_content response_text conn_cursor cursor_execute
     cursor_fetchall cursor_description).





End ApiFacts.

(** ** The text table *)

Section TextFacts.
Context `{Runtime}.

Lemma contains_refl t : contains t t.
Proof. exists [], []. now rewrite app_nil_r. Qed.

Lemma contains_trans a b c : contains a b -> contains b c -> contains a c.
Proof.
  intros (p1 & q1 & ->) (p2 & q2 & ->).
  exists (p2 ++ p1), (q1 ++ q2). now rewrite <- !app_assoc.
Qed.

Lemma contains_app_l t a b : contains t a -> contains t (a ++ b).
Proof.
  intros (p & q & ->). exists p, (q ++ b). now rewrite <- !app_assoc.
Qed.

Lemma contains_app_r t a b : contains t b -> contains t (a ++ b).
Proof.
  intros (p & q & ->). exists (a ++ p), q. now rewrite <- !app_assoc.
Qed.

Lemma contains_rjust w t : contains t (rjust w t).
Proof. unfold rjust. apply contains_app_r, contains_refl. Qed.

Lemma contains_join sep parts p :
  p ∈ parts -> contains p (Py.join sep parts).
Proof.
  induction parts as [|q ps IH]; intros Hp; [inversion Hp|].
  destruct ps as [|q' ps'].
  - apply list_elem_of_singleton in Hp as ->. apply contains_refl.
  - change (Py.join sep (q :: q' :: ps'))
      with (q ++ sep ++ Py.join sep (q' :: ps')).
    apply elem_of_cons in Hp as [->|Hp].
    + apply contains_app_l, contains_refl.
    + apply contains_app_r, contains_app_r. now apply IH.
Qed.

(** A label or text without tab, carriage return and line feed is printed
    as it is. *)
Lemma escape_clean s :
  Forall (fun c => c <> 9 /\ c <> 13 /\ c <> 10) s -> escape s = s.
Proof.
  induction 1 as [|c s (H9 & H13 & H10) _ IH]; [reflexivity|].
  unfold escape in *. simpl. rewrite IH.
  destruct (N.eqb_spec c 9); [contradiction|].
  destruct (N.eqb_spec c 13); [contradiction|].
  destruct (N.eqb_spec c 10); [contradiction|]. reflexivity.
Qed.

Lemma format_col_length s : length (format_col s) = series_len s.
Proof.
  unfold series_len. destruct s; simpl.
  - now rewrite !length_map.
  - now rewrite format_float_column_length, length_map.
  - now rewrite length_map.
Qed.

Lemma strcols_lookup df j c s :
  df_columns df !! j = Some c -> df_data df !! j = Some s ->
  strcols df !! j = Some (strcol df c s).
Proof.
  intros Hc Hs. unfold strcols. apply lookup_zip_with_Some. eauto.
Qed.

Lemma table_line_length cols i : length (table_line cols i) = length cols.
Proof. unfold table_line. apply length_map. Qed.

Lemma strcols_length df :
  frame_ok df = true -> length (strcols df) = df_ncols df.
Proof.
  intros Hok. unfold strcols, df_ncols.
  rewrite length_zip_with, (frame_ok_lengths df Hok). lia.
Qed.

(** The field of column [j] on line [i] of the table. *)
Lemma table_field df i j c s t :
  df_columns df !! j = Some c -> df_data df !! j = Some s ->
  (header_label df c :: format_col s) !! i = Some t ->
  table_line (strcols df) i !! j
  = Some (rjust (max_len (header_label df c :: format_col s)) t).
Proof.
  intros Hc Hs Ht. unfold table_line.
  rewrite list_lookup_fmap, (strcols_lookup df j c s Hc Hs). simpl.
  unfold strcol. now rewrite list_lookup_fmap, Ht.
Qed.

Lemma series_len_nrows df j s :
  frame_ok df = true -> df_data df !! j = Some s -> series_len s = df_nrows df.
Proof.
  unfold frame_ok. rewrite !andb_true_iff. intros [[_ Hlen] _] Hs.
  rewrite forallb_forall in Hlen. apply Nat.eqb_eq, Hlen.
  apply list_elem_of_In, list_elem_of_lookup. eauto.
Qed.

(** Every header and every cell text stands in the table. *)
Lemma text_contains_field df i j c s t :
  frame_ok df = true -> df_empty df = false ->
  df_columns df !! j = Some c -> df_data df !! j = Some s ->
  (header_label df c :: format_col s) !! i = Some t ->
  contains t (to_string_noindex df).
Proof.
  intros Hok He Hc Hs Ht. unfold to_string_noindex. rewrite He.
  assert (i < S (df_nrows df))%nat as Hi.
  { apply lookup_lt_Some in Ht. simpl in Ht.
    rewrite format_col_length, (series_len_nrows df j s Hok Hs) in Ht. lia. }
  eapply contains_trans; [|apply contains_join].
  2: { apply list_elem_of_fmap. exists i. split; [reflexivity|].
       apply elem_of_seq. lia. }
  eapply contains_trans; [|apply contains_join].
  2: { apply list_elem_of_lookup. exists j. now apply (table_field df i j c s t). }
  apply contains_rjust.
Qed.

Lemma contains_header_label df c : contains (escape c) (header_label df c).
Proof.
  unfold header_label. destruct (default false _).
  - exists [32], []. now rewrite app_nil_r.
  - apply contains_refl.
Qed.

(** A text that stands in another starts somewhere in it. *)
Lemma contains_occurrences needle hay :
  contains needle hay -> (0 < occurrences needle hay)%nat.
Proof.
  intros (pre & post & ->). induction pre as [|a pre IH].
  - assert (Py.startswith needle (needle ++ post) = true) as Hstart.
    { induction needle as [|c needle IHn]; [now destruct post|].
      simpl. now rewrite N.eqb_refl. }
    simpl. destruct (needle ++ post) as [|c rest] eqn:E.
    + simpl. rewrite Hstart. lia.
    + simpl. rewrite Hstart. lia.
  - simpl. lia.
Qed.

(** C6 (as amended): for every Result Set, toRecords gives exactly one
    record per row, in row order, with the column names as keys and the
    cells of that row as values (for a name, the cell in the last column of
    that name); toDisplayText of a Result Set that is not empty is the header
    line followed by one line per row, every line made of one field per
    column and of nothing else (no index field), the field being the
    right-justified printed form of the header or of the cell of that
    column; so the text contains the printed form of every column header and
    of every cell at least once. The printed form of a header without tab,
    carriage return and line feed is the header; the printed form of a cell
    of a column of integers is its string form, and so is the printed form
    of a cell of a column of objects that is no float and whose string form
    has no tab, carriage return or line feed. For an empty Result Set of at
    most 100 columns the text names every column. *)
Theorem records_and_display_text df :
  frame_ok df = true ->
  (length (to_dict_records df) = df_nrows df
   /\ forall i, (i < df_nrows df)%nat ->
        exists record,
          to_dict_records df !! i = Some record
          /\ dom record = list_to_set (df_columns df)
          /\ forall j c s v,
               df_columns df !! j = Some c ->
               (forall j', (j < j')%nat -> df_columns df !! j' <> Some c) ->
               df_data df !! j = Some s ->
               series_cells s !! i = Some v ->
               record !! c = Some v)
  /\ (df_empty df = false ->
      to_string_noindex df
      = Py.join Py.nl
          (map (fun i => Py.join [32] (table_line (strcols df) i))
               (seq 0 (S (df_nrows df))))
      /\ (forall i, length (table_line (strcols df) i) = df_ncols df)
      /\ (forall j c s,
            df_columns df !! j = Some c -> df_data df !! j = Some s ->
            let w := max_len (header_label df c :: format_col s) in
            table_line (strcols df) 0 !! j = Some (rjust w (header_label df c))
            /\ contains (escape c) (header_label df c)
            /\ contains (escape c) (to_string_noindex df)
            /\ forall i t, format_col s !! i = Some t ->
                 table_line (strcols df) (S i) !! j = Some (rjust w t)
                 /\ contains t (to_string_noindex df)))
  /\ (forall c, Forall (fun a => a <> 9 /\ a <> 13 /\ a <> 10) c -> escape c = c)
  /\ (forall xs, format_col (Int64 xs) = map py_str (series_cells (Int64 xs)))
  /\ (forall xs, format_col (Object xs) = map format_object_cell xs)
  /\ (forall v, is_float v = false ->
        Forall (fun a => a <> 9 /\ a <> 13 /\ a <> 10) (py_str v) ->
        format_object_cell v = py_str v)
  /\ (df_empty df = true -> (df_ncols df <= 100)%nat ->
      forall c, c ∈ df_columns df -> contains c (to_string_noindex df)).
Proof.
  intros Hok. repeat split.
  - apply to_dict_records_length.
  - intros i Hi. now apply record_content.
  - unfold to_string_noindex.
    match goal with He : df_empty df = false |- _ => now rewrite He end.
  - intros i. rewrite table_line_length. now apply strcols_length.
  - now apply (table_field df 0 j c s).
  - apply contains_header_label.
  - eapply contains_trans; [apply contains_header_label|].
    now apply (text_contains_field df 0 j c s).
  - now apply (table_field df (S i) j c s).
  - now apply (text_contains_field df (S i) j c s).
  - intros c. apply escape_clean.
  - intros xs. simpl. now rewrite map_map.
  - intros v Hv Hclean. destruct v; try reflexivity; try discriminate;
      simpl; now apply escape_clean.
  - intros He Hn c Hc. unfold to_string_noindex, empty_info_line. rewrite He.
    apply contains_app_r, contains_app_r, contains_app_r, contains_app_l.
    apply contains_join. rewrite take_ge; [assumption|]. exact Hn.
Qed.

End TextFacts.

(** ** The interactive surface *)

Section DesktopFacts.
Context `{Runtime}.

Lemma stream_insert_run text : forall g,
  stream_insert text g
  = (Ok tt,
     {| question_entry := question_entry g;
        result_text := result_text g ++ text;
        plot_frame := plot_frame g; warnings := warnings g;
        slept := slept g + length text |}).
Proof.
  induction text as [|c text IH]; intros g.
  - simpl. unfold mret, M_ret. rewrite app_nil_r, Nat.add_0_r. now destruct g.
  - simpl. unfold mbind, M_bind, insert_end, sleep_tick. rewrite IH. simpl.
    rewrite <- app_assoc, Nat.add_succ_r. reflexivity.
Qed.


End DesktopFacts.

Section AskFacts.
Context `{Backend} {world response cursor : Type}.
Variable generate_content : Py.str -> M world response.
Variable response_text : response -> outcome Py.str.
Variable conn_cursor : M world cursor.
Variable cursor_execute : cursor -> Py.str -> M world unit.
Variable cursor_fetchall : cursor -> M world (list (list value)).
Variable cursor_description : cursor -> world -> option (list Py.str).

Local Abbreviation synthesize :=
  (question_to_sql generate_content response_text).
Local Abbreviation execute :=
  (execute_sql conn_cursor cursor_execute cursor_fetchall cursor_description).
Local Abbreviation ask :=
  (ask_question generate_content response_text conn_cursor cursor_execute
     cursor_fetchall cursor_description).

(** [ask_question], step by step. *)
Lemma ask_question_run w g :
  ask (w, g) =
  match Py.strip (question_entry g) with
  | [] =>
      (Ok tt,
       (w, {| question_entry := question_entry g; result_text := result_text g;
              plot_frame := plot_frame g;
              warnings := warnings g ++ [(Py.lit "Input Required",
                                          Py.lit "Please enter a question.")];
              slept := slept g |}))
  | _ :: _ =>
      match synthesize (question_entry g) w with
      | (Raise e, w1) =>
          (Raise e,
           (w1, {| question_entry := question_entry g;
                   result_text := result_text g ++ question_line (question_entry g);
                   plot_frame := plot_frame g; warnings := warnings g;
                   slept := slept g |}))
      | (Ok sql, w1) =>
          match execute sql w1 with
          | (Raise e, w2) =>
              (Raise e,
               (w2, {| question_entry := question_entry g;
                       result_text := result_text g
                                      ++ question_line (question_entry g)
                                      ++ sql_line sql;
                       plot_frame := plot_frame g; warnings := warnings g;
                       slept := slept g + length (sql_line sql) |}))
          | (Ok (inr err), w2) =>
              (Ok tt,
               (w2, {| question_entry := [];
                       result_text := result_text g
                                      ++ question_line (question_entry g)
                                      ++ sql_line sql ++ error_text err;
                       plot_frame := plot_frame g; warnings := warnings g;
                       slept := slept g + length (sql_line sql)
                                + length (error_text err) |}))
          | (Ok (inl df), w2) =>
              let text := result_text g ++ question_line (question_entry g)
                          ++ sql_line sql ++ result_head ++ to_string_noindex df in
              let naps := (slept g + length (sql_line sql) + length result_head
                           + length (to_string_noindex df))%nat in
              match plot_if_possible (inl df) (plot_frame g) with
              | (Ok _, children) =>
                  (Ok tt,
                   (w2, {| question_entry := []; result_text := text;
                           plot_frame := children; warnings := warnings g;
                           slept := naps |}))
              | (Raise e, children) =>
                  (Raise e,
                   (w2, {| question_entry := question_entry g; result_text := text;
                           plot_frame := children; warnings := warnings g;
                           slept := naps |}))
              end
          end
      end
  end.
Proof.
  unfold ask_question, mbind, M_bind, on_snd, on_fst, entry_get.
  cbn [fst snd].
  destruct (Py.strip (question_entry g)) as [|c rest]; [reflexivity|].
  unfold insert_end at 1. cbn [fst snd].
  destruct (synthesize (question_entry g) w) as [[sql|e] w1]; [|reflexivity].
  rewrite stream_insert_run. cbn [fst snd question_entry result_text plot_frame warnings slept].
  destruct (execute sql w1) as [[[df|err]|e] w2].
  - rewrite !stream_insert_run. unfold on_plot_frame.
    cbn [fst snd question_entry result_text plot_frame warnings slept].
    rewrite <- !app_assoc.
    destruct (plot_if_possible (inl df) (plot_frame g)) as [[[]|e] children];
      reflexivity.
  - rewrite !stream_insert_run.
    cbn [fst snd question_entry result_text plot_frame warnings slept].
    rewrite <- !app_assoc. reflexivity.
  - rewrite <- !app_assoc. reflexivity.
Qed.

(** X2: with an entry that is empty or only white space, ask_question shows
    the warning "Input Required" and does nothing else: no text is generated,
    no statement is executed, and the transcript, the plotting area and the
    entry stay as they are. *)
Theorem ask_question_blank w g :
  Py.strip (question_entry g) = [] ->
  ask (w, g)
  = (Ok tt,
     (w, {| question_entry := question_entry g; result_text := result_text g;
            plot_frame := plot_frame g;
            warnings := warnings g ++ [(Py.lit "Input Required",
                                        Py.lit "Please enter a question.")];
            slept := slept g |})).
Proof. intros Hblank. rewrite ask_question_run. now rewrite Hblank. Qed.





End AskFacts.

(** ** What the synthesizer returns *)

Section SynthesizerOutput.
Import Py.

(** A text that begins with characters that are no line boundaries has a
    first line that begins with them. *)
Lemma first_line_prefix p : forall x,
  p <> [] -> forallb (fun c => negb (islinebreak c)) p = true ->
  exists l ls, splitlines (p ++ x) = (p ++ l) :: ls.
Proof.
  induction p as [|c p IH]; intros x Hne Hp; [contradiction|].
  simpl in Hp. apply andb_prop in Hp as [Hc Hp]. apply negb_true_iff in Hc.
  simpl. rewrite splitlines_nonbreak by assumption.
  destruct p as [|d p'].
  - simpl. destruct (splitlines x) as [|l ls]; [exists [], []|exists l, ls];
      reflexivity.
  - destruct (IH x) as (l & ls & ->); [discriminate|assumption|].
    exists l, ls. reflexivity.
Qed.

Lemma startswith_prefix p : forall s,
  startswith p s = true -> exists rest, s = p ++ rest.
Proof.
  induction p as [|a p IH]; intros s Hs; [eauto|].
  destruct s as [|c s]; [discriminate|]. simpl in Hs.
  apply andb_prop in Hs as [Hac Hs]. apply N.eqb_eq in Hac as ->.
  destruct (IH s Hs) as [rest ->]. eauto.
Qed.

Lemma startswith_app p s : startswith p (p ++ s) = true.
Proof. induction p as [|a p IH]; [reflexivity|]. simpl. now rewrite N.eqb_refl. Qed.

(** A text that begins with the marker has a line that begins with it. *)
Lemma marker_text_has_marker_line s :
  startswith ticks s = true ->
  exists l, l ∈ splitlines s /\ startswith ticks (strip l) = true.
Proof.
  intros Hs. apply startswith_prefix in Hs as [rest ->].
  destruct (first_line_prefix ticks rest) as (l & ls & E);
    [discriminate|reflexivity|].
  exists (ticks ++ l). split; [rewrite E; left|].
  rewrite startswith_ticks_strip. change (lstrip (ticks ++ l)) with (ticks ++ l).
  apply startswith_app.
Qed.

(** The text of lines 60-63 never begins with the marker. *)
Lemma sql_without_leading_marker text :
  startswith ticks (sql_of_response_text text) = false.
Proof.
  destruct (startswith ticks (strip text)) eqn:Hw.
  - destruct (startswith ticks (sql_of_response_text text)) eqn:Hs; [|reflexivity].
    apply marker_text_has_marker_line in Hs as (l & Hl & Hmark).
    now rewrite (no_marker_line_left text l Hw Hl) in Hmark.
  - unfold sql_of_response_text. now rewrite Hw, strip_idem.
Qed.

Lemma sql_is_trimmed text :
  strip (sql_of_response_text text) = sql_of_response_text text.
Proof. unfold sql_of_response_text. apply strip_idem. Qed.

Section OnQuestionToSql.
Context {world response : Type}.
Variable generate_content : Py.str -> M world response.
Variable response_text : response -> outcome Py.str.

(** X7: the query text question_to_sql returns never begins with the fence
    marker and has no white space at either end; cleaning it once more, as
    lines 60-63 do, would change nothing. *)
Theorem synthesized_query_is_clean prompt w sql w' :
  question_to_sql generate_content response_text prompt w = (Ok sql, w') ->
  startswith ticks sql = false
  /\ strip sql = sql
  /\ sql_of_response_text sql = sql.
Proof.
  unfold question_to_sql, mbind, M_bind, lift.
  destruct (generate_content (full_prompt prompt) w) as [[r|?] w1]; [|discriminate].
  destruct (response_text r) as [text|?]; [|discriminate].
  intros [= <- <-].
  pose proof (sql_without_leading_marker text) as Hm.
  pose proof (sql_is_trimmed text) as Ht.
  repeat split; [assumption..|].
  unfold sql_of_response_text at 1. now rewrite Ht, Hm.
Qed.

End OnQuestionToSql.
End SynthesizerOutput.

(** ** Stored cells and records *)

Section StoredFacts.
Context `{Runtime}.
Local Open Scope nat_scope.

Lemma existsb_false_Forall {A} (f : A -> bool) l :
  existsb f l = false -> Forall (fun x => f x = false) l.
Proof.
  induction l as [|x l IH]; [constructor|].
  simpl. intros Hx. apply orb_false_iff in Hx as [? ?]. constructor; auto.
Qed.

(** The cells of a column built from fetched values: the values themselves,
    or all of them as floats. *)
Lemma series_cells_column_of_objects vs :
  series_cells (column_of_objects vs)
  = map (fun v => if float_column vs then VFloat (to_float v) else v) vs.
Proof.
  unfold column_of_objects, float_column.
  destruct (existsb is_text vs) eqn:Ht; simpl; [now rewrite map_id|].
  destruct (existsb is_float vs) eqn:Hf; simpl; [now rewrite map_map|].
  destruct (existsb is_int vs) eqn:Hi; simpl; [|now rewrite map_id].
  destruct (existsb is_none vs) eqn:Hn; simpl; [now rewrite map_map|].
  rewrite map_map. apply map_ext_Forall.
  apply existsb_false_Forall in Ht, Hf, Hn.
  rewrite Forall_forall in *. intros v Hv.
  specialize (Ht v Hv). specialize (Hf v Hv). specialize (Hn v Hv).
  now destruct v.
Qed.

Lemma length_le_rows_width (rows : list (list value)) r :
  r ∈ rows -> length r <= rows_width rows.
Proof.
  induction rows as [|r0 rows IH]; intros Hr; [inversion Hr|].
  simpl. apply elem_of_cons in Hr as [->|Hr]; [lia|].
  specialize (IH Hr). lia.
Qed.

(** The cell a frame stores for a fetched value. *)
Lemma frame_cell rows names df i r j v :
  DataFrame_new rows names = Ok df ->
  rows !! i = Some r -> r !! j = Some v ->
  exists s,
    df_data df !! j = Some s
    /\ names !! j = df_columns df !! j
    /\ is_Some (names !! j)
    /\ series_cells s !! i
       = Some (if float_column (map (fun r => default VNone (r !! j)) rows)
               then VFloat (to_float v) else v).
Proof.
  intros Hnew Hr Hv. unfold DataFrame_new in Hnew.
  destruct rows as [|r0 rows']; [discriminate|].
  set (rows := r0 :: rows') in *.
  destruct (Nat.eqb_spec (rows_width rows) (length names)) as [Hw|]; [|discriminate].
  injection Hnew as <-. cbn [df_data df_columns].
  assert (j < length names) as Hj.
  { rewrite <- Hw. apply lookup_lt_Some in Hv.
    assert (r ∈ rows) as Hin by (apply list_elem_of_lookup; eauto).
    pose proof (length_le_rows_width rows r Hin). lia. }
  exists (column_of_objects (map (fun r => default VNone (r !! j)) rows)).
  split; [|split; [reflexivity|split]].
  - rewrite list_lookup_fmap, lookup_seq_lt by assumption. reflexivity.
  - now apply lookup_lt_is_Some.
  - rewrite series_cells_column_of_objects, !list_lookup_fmap, Hr.
    cbn [fmap option_fmap option_map]. now rewrite Hv.
Qed.

(** X8: a frame built from fetched rows of the width of the column list
    gives the rows back, cell by cell and in order, when no column has to be
    stored as floats (no column of numbers with a float or a None in it). *)
Theorem frame_rows_round_trip rows names df :
  DataFrame_new rows names = Ok df ->
  Forall (fun r => length r = length names) rows ->
  (forall j, j < length names ->
     float_column (map (fun r => default VNone (r !! j)) rows) = false) ->
  df_rows df = rows.
Proof.
  intros Hnew Hwidth Hplain.
  destruct (DataFrame_new_ok _ _ _ Hnew) as (Hcols & Hrows & Hok).
  apply list_eq. intros i. unfold df_rows.
  rewrite list_lookup_fmap, Hrows.
  destruct (rows !! i) as [r|] eqn:Hr.
  - rewrite lookup_seq_lt by (now apply lookup_lt_Some in Hr). simpl. f_equal.
    assert (length r = length names) as Hlen.
    { rewrite Forall_forall in Hwidth. apply Hwidth, list_elem_of_lookup. eauto. }
    apply list_eq. intros j. unfold df_row. rewrite list_lookup_fmap.
    destruct (r !! j) as [v|] eqn:Hv.
    + destruct (frame_cell rows names df i r j v Hnew Hr Hv) as (s & -> & _ & _ & Hcell).
      simpl. rewrite Hcell, Hplain; [reflexivity|].
      rewrite <- Hlen. now apply lookup_lt_Some in Hv.
    + rewrite (lookup_ge_None_2 (df_data df)); [reflexivity|].
      rewrite (frame_ok_lengths df Hok), Hcols, <- Hlen.
      now apply lookup_ge_None.
  - rewrite lookup_seq_ge by (now apply lookup_ge_None). reflexivity.
Qed.

(** X9: every record of to_dict has exactly the column names as keys, and
    maps a name to the cell of its row in the last column of that name: when
    two columns share a name the record has one key for both and the value
    of the earlier column is not in it. *)
Theorem record_keys_and_values df i record :
  frame_ok df = true ->
  to_dict_records df !! i = Some record ->
  dom record = list_to_set (df_columns df)
  /\ forall j c s v,
       df_columns df !! j = Some c ->
       (forall j', j < j' -> df_columns df !! j' <> Some c) ->
       df_data df !! j = Some s ->
       series_cells s !! i = Some v ->
       record !! c = Some v.
Proof.
  intros Hok Hrec.
  assert (i < df_nrows df) as Hi.
  { apply lookup_lt_Some in Hrec. now rewrite to_dict_records_length in Hrec. }
  rewrite (to_dict_records_lookup df i Hi) in Hrec. injection Hrec as <-.
  split.
  - unfold dict_of_zip. rewrite dom_foldl_insert, dom_empty_L, fst_zip.
    + apply (left_id_L ∅ (∪)).
    + rewrite df_row_length, (frame_ok_lengths df Hok). lia.
  - intros j c s v Hc Hlast Hs Hv.
    destruct (record_lookup df i j c s v Hok Hc Hlast Hs Hv) as (rec & Hrec & Hlook).
    rewrite (to_dict_records_lookup df i Hi) in Hrec. now injection Hrec as <-.
Qed.

End StoredFacts.

(** ** The plotting area *)

Section PlotAreaFacts.
Context `{Backend}.
Local Open Scope nat_scope.

(** X10: whatever plot_if_possible is given and whatever the plotting area
    held, the area holds afterwards exactly what plot_if_possible leaves in
    an area that was empty: none of the earlier canvases, and at most one new
    canvas, which is drawn and packed when plot_if_possible returned and
    neither drawn nor packed when it raised. *)
Theorem plot_replaces_earlier_canvases (r : result) children :
  exists o canvases,
    plot_if_possible r children = (o, canvases)
    /\ plot_if_possible r [] = (o, canvases)
    /\ length canvases <= 1
    /\ forall cv, cv ∈ canvases ->
         match o with
         | Ok _ => cv_drawn cv = true /\ cv_packed cv = true
         | Raise _ => cv_drawn cv = false /\ cv_packed cv = false
         end.
Proof.
  assert (plot_if_possible r children = plot_if_possible r []) as ->.
  { unfold plot_if_possible, mbind, M_bind, clear_plot_frame. reflexivity. }
  unfold plot_if_possible, mbind, M_bind, clear_plot_frame, lift.
  destruct r as [df|msg]; cbn [negb].
  - destruct (df_empty df); cbn [negb].
    + do 2 eexists. split; [reflexivity|]. split; [reflexivity|].
      split; [simpl; lia|]. intros cv Hcv. inversion Hcv.
    + destruct (draw_on_axes df new_axes) as [ax|e].
      * rewrite show_figure_run.
        destruct (canvas_draw (figure_of ax)) as [[]|e];
          do 2 eexists; (split; [reflexivity|]); (split; [reflexivity|]);
          (split; [simpl; lia|]); intros cv Hcv;
          apply list_elem_of_singleton in Hcv as ->; auto.
      * do 2 eexists. split; [reflexivity|]. split; [reflexivity|].
        split; [simpl; lia|]. intros cv Hcv. inversion Hcv.
  - do 2 eexists. split; [reflexivity|]. split; [reflexivity|].
    split; [simpl; lia|]. intros cv Hcv. inversion Hcv.
Qed.

(** X11: on every Result Set the unpacking of the two column names and the
    reads of the first column and of the first cell are in bounds:
    plot_if_possible raises only what the renderer raises on the figure, or
    what the cast of the first of two columns raises on a byte string that
    is not UTF-8 (then no canvas is made). Every line it hands to the axes
    has a one-dimensional x and a one-dimensional y of the same length: one
    entry per row for the two-column chart, one entry for the single
    value. *)
Theorem plotted_lines_are_well_shaped df children :
  frame_ok df = true ->
  exists o canvases,
    plot_if_possible (inl df) children = (o, canvases)
    /\ (forall cv ax ln,
          cv ∈ canvases -> ax ∈ fig_axes (cv_figure cv) -> ln ∈ ax_lines ax ->
          exists xs ys,
            ln_x ln = Arr1 xs /\ ln_y ln = Arr1 ys
            /\ length xs = length ys
            /\ (length xs = df_nrows df \/ length xs = 1))
    /\ (forall e, o = Raise e ->
          (exists cv, canvases = [cv] /\ canvas_draw (cv_figure cv) = Raise e)
          \/ (canvases = []
              /\ exists x y xs ys i b,
                   df_columns df = [x; y] /\ df_data df = [xs; ys]
                   /\ series_cells xs !! i = Some (VBytes b)
                   /\ Py.decode_utf8 b = None)).
Proof.
  intros Hok.
  destruct (plot_cases df children Hok)
    as [->|[(x & y & xs & ys & e & Hc & Hd & Hcast & ->)|(ax & -> & Hax)]].
  - do 2 eexists. split; [reflexivity|]. split.
    + intros cv ax ln Hcv. inversion Hcv.
    + discriminate.
  - do 2 eexists. split; [reflexivity|]. split.
    + intros cv ax ln Hcv. inversion Hcv.
    + intros e' [= <-]. right. split; [reflexivity|].
      destruct (traverse_raise _ _ _ Hcast) as (i & v & Hi & Hv & _).
      destruct (cast_str_raises v e Hv) as (b & -> & Hb).
      exists x, y, xs, ys, i, b. auto.
  - assert (forall ln, ln ∈ ax_lines ax ->
              exists xs ys,
                ln_x ln = Arr1 xs /\ ln_y ln = Arr1 ys
                /\ length xs = length ys
                /\ (length xs = df_nrows df \/ length xs = 1)) as Hlines.
    { destruct Hax as [->|[(x & y & xs & ys & xtext & Hc & Hd & Hcast & ->)
                          |(label & s & v & rest & Hc & Hd & Hv & ->)]];
        intros ln Hln; simpl in Hln.
      - inversion Hln.
      - apply list_elem_of_singleton in Hln as ->. simpl.
        do 2 eexists. split; [reflexivity|]. split; [reflexivity|].
        rewrite length_map.
        apply traverse_Forall2, Forall2_length in Hcast.
        pose proof (series_len_nrows df 0 xs Hok) as Hx.
        pose proof (series_len_nrows df 1 ys Hok) as Hy.
        rewrite Hd in Hx, Hy. unfold series_len in Hx, Hy.
        rewrite <- Hcast, (Hx eq_refl), (Hy eq_refl). auto.
      - apply list_elem_of_singleton in Hln as ->. simpl.
        do 2 eexists. auto. }
    destruct (canvas_draw (figure_of ax)) as [[]|e] eqn:Hdraw;
      do 2 eexists; (split; [reflexivity|]); split.
    + intros cv ax' ln Hcv Hax' Hln.
      apply list_elem_of_singleton in Hcv as ->. simpl in Hax'.
      apply list_elem_of_singleton in Hax' as ->. now apply Hlines.
    + discriminate.
    + intros cv ax' ln Hcv Hax' Hln.
      apply list_elem_of_singleton in Hcv as ->. simpl in Hax'.
      apply list_elem_of_singleton in Hax' as ->. now apply Hlines.
    + intros e' [= <-]. left. eexists. split; [reflexivity|exact Hdraw].
Qed.

End PlotAreaFacts.

(** ** The handler, end to end *)

Section EndToEnd.
Context `{Backend} {world response cursor : Type}.
Local Open Scope nat_scope.
Variable generate_content : Py.str -> M world response.
Variable response_text : response -> outcome Py.str.
Variable conn_cursor : M world cursor.
Variable cursor_execute : cursor -> Py.str -> M world unit.
Variable cursor_fetchall : cursor -> M world (list (list value)).
Variable cursor_description : cursor -> world -> option (list Py.str).

Local Abbreviation synthesize :=
  (question_to_sql generate_content response_text).
Local Abbreviation execute :=
  (execute_sql conn_cursor cursor_execute cursor_fetchall cursor_description).
Local Abbreviation ask :=
  (api_ask generate_content response_text conn_cursor cursor_execute
     cursor_fetchall cursor_description).
Local Abbreviation post :=
  (post_ask generate_content response_text conn_cursor cursor_execute
     cursor_fetchall cursor_description).

(** X12: what execute_sql returns is always usable by its callers: a frame
    is well formed, and an error text begins with "Error: ". *)
Theorem execute_sql_results_are_well_formed sql w r w' :
  execute sql w = (Ok r, w') ->
  match r with
  | inl df => frame_ok df = true
  | inr err => Py.startswith (Py.lit "Error: ") err = true
  end.
Proof.
  intros Hex. destruct r as [df|err].
  - exact (execute_sql_frame_ok _ _ _ _ _ _ _ _ Hex).
  - rewrite execute_sql_cases in Hex.
    destruct (fetch_frame _ _ _ _ sql w) as [[df|e] w'']; [discriminate|].
    assert (err = Py.lit "Error: " ++ exn_msg e) as -> by congruence.
    apply startswith_app.
Qed.

(** X13: when the generation raises, the handler raises too: the route
    answers with the status 500 and the plain text Internal Server Error, and
    no statement is executed (the world is the one the generator left,
    whatever the store would do). *)
Theorem api_ask_generation_failure data w e w1 :
  question_to_sql generate_content response_text (question data) w
  = (Raise e, w1) ->
  api_ask generate_content response_text conn_cursor cursor_execute
    cursor_fetchall cursor_description data w = (Raise e, w1)
  /\ post_ask generate_content response_text conn_cursor cursor_execute
       cursor_fetchall cursor_description data w
     = ((500%Z, Plain (Py.lit "Internal Server Error")), w1).
Proof.
  intros Hsyn.
  assert (ask data w = (Raise e, w1)) as Hask
    by (unfold api_ask, mbind, M_bind; now rewrite Hsyn).
  split; [exact Hask|]. unfold post_ask. now rewrite Hask.
Qed.


Lemma rows_width_uniform (rows : list (list value)) n :
  rows <> [] -> Forall (fun r => length r = n) rows -> rows_width rows = n.
Proof.
  induction 2 as [|r rows Hr Hrows IH]; [contradiction|].
  simpl. destruct rows as [|r' rows']; [simpl; lia|].
  rewrite IH by discriminate. lia.
Qed.

(** X14: end to end: when the generated statement runs and the store
    returns rows of the width of its column list, under names that are all
    different, the handler answers with one record per fetched row, in
    order, and the record of a row maps each column name to the value
    fetched for it (as a float when its column is stored as floats). *)
Theorem api_ask_returns_the_fetched_values data w sql w1 c w2 w3 rows w4 names :
  synthesize (question data) w = (Ok sql, w1) ->
  conn_cursor w1 = (Ok c, w2) ->
  cursor_execute c sql w2 = (Ok tt, w3) ->
  cursor_fetchall c w3 = (Ok rows, w4) ->
  cursor_description c w4 = Some names ->
  NoDup names ->
  Forall (fun r => length r = length names) rows ->
  exists records,
    ask data w
    = (Ok [ (Py.lit "question", PStr (question data));
            (Py.lit "sql", PStr sql);
            (Py.lit "result", PRecords records) ], w4)
    /\ length records = length rows
    /\ forall i r j v name,
         rows !! i = Some r -> r !! j = Some v -> names !! j = Some name ->
         exists record,
           records !! i = Some record
           /\ record !! name
              = Some (if float_column (map (fun r => default VNone (r !! j)) rows)
                      then VFloat (to_float v) else v).
Proof.
  intros Hsyn Hc He Hf Hd Hnodup Hwidth.
  assert (exists df, DataFrame_new rows names = Ok df) as [df Hnew].
  { unfold DataFrame_new. destruct rows as [|r0 rows']; [eauto|].
    rewrite (rows_width_uniform (r0 :: rows') (length names)) by (discriminate || assumption).
    rewrite Nat.eqb_refl. eauto. }
  assert (execute sql w1 = (Ok (inl df), w4)) as Hex.
  { rewrite execute_sql_cases.
    unfold fetch_frame, mbind, M_bind, description_names, lift.
    now rewrite Hc, He, Hf, Hd, Hnew. }
  destruct (DataFrame_new_ok _ _ _ Hnew) as (Hcols & Hrows & Hok).
  exists (to_dict_records df). split; [|split].
  - unfold api_ask, mbind, M_bind. now rewrite Hsyn, Hex.
  - now rewrite to_dict_records_length.
  - intros i r j v name Hr Hv Hname.
    destruct (frame_cell rows names df i r j v Hnew Hr Hv) as (s & Hs & Hj & _ & Hcell).
    apply (record_lookup df i j name s); try assumption.
    + now rewrite <- Hj.
    + intros j' Hlt Hj'. rewrite Hcols in Hj'.
      pose proof (NoDup_lookup _ _ _ _ Hnodup Hname Hj'). lia.
Qed.

End EndToEnd.

(** ** The Result Set as a shared object *)

Section ObjectFacts.
Context `{Backend}.
Local Abbreviation heap := (gmap loc object).

Lemma column_at_weaken (h h' : heap) l s :
  h ⊆ h' -> column_at h l s -> column_at h' l s.
Proof. intros Hsub Hl. unfold column_at. exact (lookup_weaken h h' l _ Hl Hsub). Qed.

Lemma columns_at_weaken (h h' : heap) ls cols :
  h ⊆ h' -> Forall2 (column_at h) ls cols -> Forall2 (column_at h') ls cols.
Proof.
  intros Hsub Hall. eapply Forall2_impl; [exact Hall|].
  intros l s. now apply column_at_weaken.
Qed.

Lemma selects_weaken (h h' : heap) rs sel :
  h ⊆ h' -> selects h rs sel -> selects h' rs sel.
Proof.
  intros Hsub. destruct rs, sel; simpl; try contradiction.
  - now apply column_at_weaken.
  - now apply columns_at_weaken.
Qed.

(** What was in the store stays the frame it was. *)
Lemma represents_weaken (h h' : heap) r df :
  h ⊆ h' -> represents h r df -> represents h' r df.
Proof.
  intros Hsub (data & Hr & Hcols). exists data. split.
  - exact (lookup_weaken h h' r _ Hr Hsub).
  - now apply (columns_at_weaken h h').
Qed.

Lemma series_at_column h l s : column_at h l s -> series_at l h = (Ok s, h).
Proof. unfold column_at, series_at. now intros ->. Qed.

Lemma for_each_series_at h ls cols :
  Forall2 (column_at h) ls cols -> for_each series_at ls h = (Ok cols, h).
Proof.
  induction 1 as [|l s ls cols Hl _ IH]; [reflexivity|].
  simpl. unfold mbind, M_bind. rewrite (series_at_column h l s Hl), IH.
  reflexivity.
Qed.

(** Reading the frame off the store gives the frame and changes nothing. *)
Lemma read_frame_represents h r df :
  represents h r df -> read_frame r h = (Ok df, h).
Proof.
  intros (data & Hr & Hcols). unfold read_frame, mbind, M_bind, frame_at.
  rewrite Hr. cbn [fst snd]. rewrite (for_each_series_at h data _ Hcols).
  unfold mret, M_ret. now destruct df.
Qed.

Lemma obj_columns_represents h r df :
  represents h r df -> obj_columns r h = (Ok (df_columns df), h).
Proof.
  intros (data & Hr & _). unfold obj_columns, mbind, M_bind, frame_at.
  now rewrite Hr.
Qed.

Lemma obj_empty_represents h r df :
  represents h r df -> obj_empty r h = (Ok (df_empty df), h).
Proof.
  intros (data & Hr & _). unfold obj_empty, mbind, M_bind, frame_at.
  now rewrite Hr.
Qed.

(** The column objects that carry a label hold the columns of that label. *)
Lemma columns_named_at (h : heap) (label : Py.str) (data : list loc) ss :
  Forall2 (column_at h) data ss ->
  forall cols,
    Forall2 (column_at h)
      (omap (fun '(c, l) => if decide (c = label) then Some l else None)
            (zip (cols : list Py.str) data))
      (omap (fun '(c, s) => if decide (c = label) then Some s else None)
            (zip (cols : list Py.str) ss)).
Proof.
  induction 1 as [|l s data ss Hl _ IH]; intros [|c cols]; simpl;
    try constructor.
  destruct (decide (c = label)); [constructor; [assumption|]|]; apply IH.
Qed.

Lemma obj_getitem_refines h r df label :
  represents h r df ->
  match getitem df label with
  | Raise e => obj_getitem r label h = (Raise e, h)
  | Ok sel => exists rs, obj_getitem r label h = (Ok rs, h) /\ selects h rs sel
  end.
Proof.
  intros (data & Hr & Hcols).
  pose proof (columns_named_at h label data (df_data df) Hcols (df_columns df))
    as Hnamed.
  unfold getitem, columns_named, obj_getitem, mbind, M_bind, frame_at.
  rewrite Hr. cbn [fst snd].
  destruct Hnamed as [|l s ls ss Hl Hrest]; [reflexivity|].
  destruct Hrest as [|l2 s2 ls ss Hl2 Hrest].
  - exists (RefSeries l). split; [reflexivity|exact Hl].
  - exists (RefFrame (l :: l2 :: ls)). split; [reflexivity|].
    simpl. repeat constructor; assumption.
Qed.

Lemma obj_is_numeric_dtype_refines h rs sel :
  selects h rs sel ->
  obj_is_numeric_dtype rs h = (Ok (is_numeric_dtype sel), h).
Proof.
  destruct rs, sel; simpl; try contradiction.
  - intros Hl. unfold mbind, M_bind. now rewrite (series_at_column h l s Hl).
  - reflexivity.
Qed.

Lemma obj_array_of_refines h rs sel :
  selects h rs sel -> obj_array_of rs h = (Ok (array_of sel), h).
Proof.
  destruct rs, sel; simpl; try contradiction.
  - intros Hl. unfold mbind, M_bind. now rewrite (series_at_column h l s Hl).
  - intros Hls. unfold mbind, M_bind. now rewrite (for_each_series_at h ls cols Hls).
Qed.

(** A new object leaves every object of the store in place. *)
Lemma alloc_fresh (h : heap) o :
  exists l, alloc o h = (Ok l, <[l := o]> h) /\ h !! l = None.
Proof.
  eexists. split; [reflexivity|]. apply not_elem_of_dom, is_fresh.
Qed.

Lemma obj_astype_series_refines h l s :
  column_at h l s ->
  exists h',
    h ⊆ h'
    /\ match series_astype_str s with
       | Raise e => obj_astype_series l h = (Raise e, h')
       | Ok t =>
           exists l', obj_astype_series l h = (Ok l', h') /\ column_at h' l' t
       end.
Proof.
  intros Hl. unfold obj_astype_series, mbind, M_bind.
  rewrite (series_at_column h l s Hl). unfold lift.
  destruct (series_astype_str s) as [t|e].
  - destruct (alloc_fresh h (OSeries t)) as (l' & Halloc & Hfree).
    exists (<[l' := OSeries t]> h). split; [now apply insert_subseteq|].
    exists l'. split; [exact Halloc|]. apply lookup_insert_eq.
  - exists h. split; reflexivity.
Qed.

Lemma for_each_astype_refines ls : forall cols h,
  Forall2 (column_at h) ls cols ->
  exists h',
    h ⊆ h'
    /\ match traverse series_astype_str cols with
       | Raise e => for_each obj_astype_series ls h = (Raise e, h')
       | Ok ts =>
           exists ls', for_each obj_astype_series ls h = (Ok ls', h')
                       /\ Forall2 (column_at h') ls' ts
       end.
Proof.
  induction ls as [|l ls IH]; intros cols h Hall;
    inversion Hall as [|? s ? cols' Hl Hrest]; subst.
  - exists h. split; [reflexivity|]. exists []. split; [reflexivity|constructor].
  - destruct (obj_astype_series_refines h l s Hl) as (h1 & Hsub1 & Hstep).
    simpl. unfold mbind, M_bind.
    destruct (series_astype_str s) as [t|e].
    + destruct Hstep as (l' & -> & Hl').
      destruct (IH cols' h1 (columns_at_weaken h h1 _ _ Hsub1 Hrest))
        as (h2 & Hsub2 & Hmore).
      exists h2. split; [now transitivity h1|].
      destruct (traverse series_astype_str cols') as [ts|e].
      * destruct Hmore as (ls' & -> & Hls').
        exists (l' :: ls'). split; [reflexivity|].
        constructor; [now apply (column_at_weaken h1 h2)|assumption].
      * now rewrite Hmore.
    + rewrite Hstep. exists h1. split; [assumption|reflexivity].
Qed.

Lemma obj_astype_str_refines h rs sel :
  selects h rs sel ->
  exists h',
    h ⊆ h'
    /\ match astype_str sel with
       | Raise e => obj_astype_str rs h = (Raise e, h')
       | Ok sel' =>
           exists rs', obj_astype_str rs h = (Ok rs', h') /\ selects h' rs' sel'
       end.
Proof.
  destruct rs as [l|ls], sel as [s|cols]; simpl; try contradiction.
  - intros Hl. destruct (obj_astype_series_refines h l s Hl) as (h1 & Hsub & Hstep).
    exists h1. split; [assumption|]. unfold mbind, M_bind.
    destruct (series_astype_str s) as [t|e].
    + destruct Hstep as (l' & -> & Hl'). exists (RefSeries l'). auto.
    + now rewrite Hstep.
  - intros Hls. destruct (for_each_astype_refines ls cols h Hls) as (h1 & Hsub & Hstep).
    exists h1. split; [assumption|]. unfold mbind, M_bind.
    destruct (traverse series_astype_str cols) as [ts|e].
    + destruct Hstep as (ls' & -> & Hls'). exists (RefFrame ls'). auto.
    + now rewrite Hstep.
Qed.

Lemma obj_iloc_col_refines h r df j :
  represents h r df ->
  match iloc_col df j with
  | Raise e => obj_iloc_col r j h = (Raise e, h)
  | Ok s => exists l, obj_iloc_col r j h = (Ok l, h) /\ column_at h l s
  end.
Proof.
  intros (data & Hr & Hcols).
  unfold iloc_col, obj_iloc_col, mbind, M_bind, frame_at. rewrite Hr.
  cbn [fst snd].
  destruct (df_data df !! j) as [s|] eqn:Hs.
  - destruct (Forall2_lookup_r _ _ _ _ _ Hcols Hs) as (l & -> & Hl).
    exists l. split; [reflexivity|assumption].
  - apply lookup_ge_None in Hs. rewrite <- (Forall2_length _ _ _ Hcols) in Hs.
    apply lookup_ge_None in Hs. now rewrite Hs.
Qed.

Lemma obj_iloc_cell_refines h r df i j :
  represents h r df -> obj_iloc_cell r i j h = (iloc_cell df i j, h).
Proof.
  intros (data & Hr & Hcols).
  unfold iloc_cell, obj_iloc_cell, mbind, M_bind, frame_at. rewrite Hr.
  cbn [fst snd].
  destruct (df_data df !! j) as [s|] eqn:Hs.
  - destruct (Forall2_lookup_r _ _ _ _ _ Hcols Hs) as (l & -> & Hl).
    rewrite (series_at_column h l s Hl).
    now destruct (series_cells s !! i).
  - apply lookup_ge_None in Hs. rewrite <- (Forall2_length _ _ _ Hcols) in Hs.
    apply lookup_ge_None in Hs. now rewrite Hs.
Qed.

(** Lines 87-100 on the frame object do what they do on the frame, and
    leave every object of the store in place. *)
Lemma obj_draw_on_axes_refines h r df ax :
  represents h r df ->
  exists h', h ⊆ h' /\ obj_draw_on_axes r ax h = (draw_on_axes df ax, h').
Proof.
  intros Hrep. unfold obj_draw_on_axes, draw_on_axes, df_ncols.
  unfold mbind at 1, M_bind at 1. rewrite (obj_columns_represents h r df Hrep).
  destruct (length (df_columns df) =? 2)%nat.
  - unfold mbind at 1, M_bind at 1, lift at 1.
    destruct (unpack2 (df_columns df)) as [[x y]|e];
      [|exists h; split; reflexivity].
    cbn [fst snd]. unfold mbind at 1, M_bind at 1.
    pose proof (obj_getitem_refines h r df y Hrep) as Hy.
    destruct (getitem df y) as [ysel|e];
      [|rewrite Hy; exists h; split; reflexivity].
    destruct Hy as (rsy & -> & Hysel).
    unfold mbind at 1, M_bind at 1.
    rewrite (obj_is_numeric_dtype_refines h rsy ysel Hysel).
    destruct (is_numeric_dtype ysel); [|exists h; split; reflexivity].
    unfold mbind at 1, M_bind at 1.
    pose proof (obj_getitem_refines h r df x Hrep) as Hx.
    destruct (getitem df x) as [xsel|e];
      [|rewrite Hx; exists h; split; reflexivity].
    destruct Hx as (rsx & -> & Hxsel).
    unfold mbind at 1, M_bind at 1.
    destruct (obj_astype_str_refines h rsx xsel Hxsel) as (h1 & Hsub & Hcast).
    exists h1. split; [assumption|].
    destruct (astype_str xsel) as [xtext|e]; [|now rewrite Hcast].
    destruct Hcast as (rsx' & -> & Hxtext).
    unfold mbind, M_bind.
    rewrite (obj_array_of_refines h1 rsx' xtext Hxtext).
    rewrite (obj_array_of_refines h1 rsy ysel (selects_weaken h h1 _ _ Hsub Hysel)).
    reflexivity.
  - destruct (length (df_columns df) =? 1)%nat; [|exists h; split; reflexivity].
    exists h. split; [reflexivity|].
    unfold mbind at 1, M_bind at 1.
    pose proof (obj_iloc_col_refines h r df 0 Hrep) as Hcol.
    destruct (iloc_col df 0) as [s|e]; [|now rewrite Hcol].
    destruct Hcol as (l & -> & Hl).
    unfold mbind at 1, M_bind at 1. rewrite (series_at_column h l s Hl).
    destruct (numeric_series s); [|reflexivity].
    unfold mbind, M_bind. rewrite (obj_iloc_cell_refines h r df 0 0 Hrep).
    destruct (iloc_cell df 0 0) as [v|e]; [|reflexivity].
    now destruct (df_columns df !! 0%nat).
Qed.

(** plot_if_possible on the frame object does to the plotting area what it
    does on the frame, and leaves every object of the store in place. *)
Lemma obj_plot_if_possible_refines h r df children :
  represents h r df ->
  exists h',
    h ⊆ h'
    /\ obj_plot_if_possible (inl r) (h, children)
       = ((plot_if_possible (inl df) children).1,
          (h', (plot_if_possible (inl df) children).2)).
Proof.
  intros Hrep.
  unfold obj_plot_if_possible, plot_if_possible, mbind, M_bind, on_snd, on_fst,
    clear_plot_frame, lift.
  cbn [fst snd]. rewrite (obj_empty_represents h r df Hrep).
  destruct (df_empty df); cbn [negb fst snd].
  - exists h. split; reflexivity.
  - destruct (obj_draw_on_axes_refines h r df new_axes Hrep) as (h1 & Hsub & ->).
    exists h1. split; [assumption|].
    destruct (draw_on_axes df new_axes) as [ax|e]; [|reflexivity].
    cbn [fst snd]. now destruct (show_figure (figure_of ax) []).
Qed.

(** One presentation leaves every object of the store in place. *)
Lemma present_keeps h r df children op :
  represents h r df ->
  exists h' children',
    present r (h, children) op = (h', children') /\ h ⊆ h'.
Proof.
  intros Hrep. destruct op; unfold present; cbn [fst snd].
  - unfold obj_to_string_noindex, mbind, M_bind.
    rewrite (read_frame_represents h r df Hrep). do 2 eexists.
    split; reflexivity.
  - unfold obj_to_dict_records, mbind, M_bind.
    rewrite (read_frame_represents h r df Hrep). do 2 eexists.
    split; reflexivity.
  - destruct (obj_plot_if_possible_refines h r df children Hrep) as (h1 & Hsub & ->).
    do 2 eexists. split; [reflexivity|assumption].
Qed.

Lemma present_all_keeps r df ops : forall h children,
  represents h r df ->
  exists h' children',
    foldl (present r) (h, children) ops = (h', children') /\ h ⊆ h'.
Proof.
  induction ops as [|op ops IH]; intros h children Hrep.
  - do 2 eexists. split; reflexivity.
  - destruct (present_keeps h r df children op Hrep) as (h1 & c1 & Hstep & Hsub1).
    destruct (IH h1 c1 (represents_weaken h h1 r df Hsub1 Hrep))
      as (h2 & c2 & Hrest & Hsub2).
    exists h2, c2. simpl. rewrite Hstep. split; [assumption|].
    now transitivity h1.
Qed.

(** C7: the presentation operations are pure with respect to the Result
    Set. For a Result Set [df] held in the store at [r] (the frame object and
    its column objects), after any sequence of presentation operations on it
    every object that was in the store is there unchanged, so the store still
    holds [df] at [r]; and from there each operation yields the artifact it
    yields on [df] itself: toDisplayText the text of [df], toRecords the
    records of [df], plot the outcome and the plotting area of plot on [df],
    which depend on nothing the earlier operations did. So applying any of
    them leaves the Result Set unchanged, and the same operation called
    again yields the same artifact. *)
Theorem presentation_is_pure h r df children ops h' children' :
  represents h r df ->
  foldl (present r) (h, children) ops = (h', children') ->
  (h ⊆ h' /\ represents h' r df)
  /\ obj_to_string_noindex r h' = (Ok (to_string_noindex df), h')
  /\ obj_to_dict_records r h' = (Ok (to_dict_records df), h')
  /\ exists h'',
       obj_plot_if_possible (inl r) (h', children')
       = ((plot_if_possible (inl df) []).1,
          (h'', (plot_if_possible (inl df) []).2))
       /\ h' ⊆ h'' /\ represents h'' r df.
Proof.
  intros Hrep Hrun.
  destruct (present_all_keeps r df ops h children Hrep) as (h1 & c1 & Hrun' & Hsub).
  rewrite Hrun in Hrun'. injection Hrun' as <- <-.
  pose proof (represents_weaken h h' r df Hsub Hrep) as Hrep'.
  split; [split; assumption|]. split; [|split].
  - unfold obj_to_string_noindex, mbind, M_bind.
    now rewrite (read_frame_represents h' r df Hrep').
  - unfold obj_to_dict_records, mbind, M_bind.
    now rewrite (read_frame_represents h' r df Hrep').
  - destruct (obj_plot_if_possible_refines h' r df children' Hrep')
      as (h2 & Hsub2 & Hplot).
    exists h2. split; [|split; [assumption|]].
    + rewrite Hplot.
      assert (plot_if_possible (inl df) children' = plot_if_possible (inl df) [])
        as -> by (unfold plot_if_possible, mbind, M_bind, clear_plot_frame;
                  reflexivity).
      reflexivity.
    + now apply (represents_weaken h' h2).
Qed.

End ObjectFacts.

(** * Worked examples *)

#[local] Existing Instance demo_runtime.
#[local] Existing Instance demo_backend.

(** The frames above are the ones pandas builds from the fetched rows. *)
Lemma demo_frames_built :
  DataFrame_new [[VStr (Py.lit "2024-01-01"); VInt 10]; [VStr (Py.lit "2024-01-02"); VInt 25]]
    [Py.lit "date"; Py.lit "ad_sales"] = Ok demo_sales_frame
  /\ DataFrame_new [[VInt 42]] [Py.lit "total"] = Ok demo_total_frame
  /\ DataFrame_new [[VInt 1; VInt 1]] [Py.lit "item_id"; Py.lit "item_id"]
     = Ok demo_join_frame
  /\ DataFrame_new [[VStr (Py.lit "2024-01-01"); VInt 1; VInt 5]]
       [Py.lit "date"; Py.lit "item_id"; Py.lit "clicks"] = Ok demo_wide_frame
  /\ DataFrame_new [[VStr (Py.lit "2024-01-01 00:00:00"); VInt 1; VStr (Py.lit "TRUE"); VNone]]
       [Py.lit "eligibility_datetime_utc"; Py.lit "item_id";
        Py.lit "eligibility"; Py.lit "message"] = Ok demo_eligibility_frame
  /\ DataFrame_new [[VBytes [255]; VInt 5]] [Py.lit "photo"; Py.lit "clicks"]
     = Ok demo_blob_frame
  /\ DataFrame_new [[VStr (Py.lit "2024-01-01"); VInt 5]]
       [bad_mathtext; Py.lit "clicks"] = Ok demo_mathtext_frame
  /\ DataFrame_new [[VInt 42]] [bad_mathtext] = Ok demo_mathtext_total_frame
  /\ DataFrame_new [[VStr (Py.lit "x" ++ [9] ++ Py.lit "y")]]
       [Py.lit "a" ++ [9] ++ Py.lit "b"] = Ok demo_tab_frame
  /\ DataFrame_new demo_null_rows [Py.lit "ad_sales"] = Ok demo_null_frame
  /\ DataFrame_new [] demo_many_columns = Ok demo_many_columns_frame.
Proof. repeat split. Qed.

(** C1, counterexample: the store runs the INSERT without any fault of the
    engine, and execute_sql still returns an error; its text is the
    interpreter's TypeError, not a message of the engine. *)
Lemma insert_error_is_not_an_engine_message :
  demo_cursor demo_db0 = (Ok tt, demo_db0)
  /\ demo_execute tt demo_insert demo_db0 = (Ok tt, demo_db1)
  /\ demo_fetchall tt demo_db1 = (Ok [], demo_db1)
  /\ demo_execute_sql demo_insert demo_db0
     = (Ok (inr (Py.lit "Error: 'NoneType' object is not iterable")), demo_db1).
Proof. repeat split. Qed.

(** C1, on a statement the engine rejects: the error text carries the
    engine's message. *)
Lemma execute_sql_never_raises_witness :
  demo_execute_sql (Py.lit "SELEKT * FROM AdSales") demo_db0
  = (Ok (inr (Py.lit "Error: near " ++ Py.quote ++ Py.lit "SELEKT" ++ Py.quote
              ++ Py.lit ": syntax error")), demo_db0).
Proof.
  exact (proj2 (execute_sql_never_raises demo_cursor demo_execute demo_fetchall
                  demo_description (Py.lit "SELEKT * FROM AdSales") demo_db0)
           tt demo_db0 _ demo_db0 eq_refl eq_refl).
Defined.

(** C9, on the INSERT: an error comes back and the store has the new row. *)
Lemma statement_without_columns_is_an_error_witness :
  demo_execute_sql demo_insert demo_db0
  = (Ok (inr (Py.lit "Error: 'NoneType' object is not iterable")), demo_db1)
  /\ demo_db1 <> demo_db0.
Proof.
  split.
  - exact (statement_without_columns_is_an_error demo_cursor demo_execute
             demo_fetchall demo_description demo_insert demo_db0 tt demo_db0
             demo_db1 [] demo_db1 eq_refl eq_refl eq_refl eq_refl).
  - discriminate.
Defined.



(** C8, on a generator that is unreachable. *)
Lemma generation_failure_propagates_witness :
  question_to_sql
    (demo_generate (Raise (Exn "ServiceUnavailable" (Py.lit "503 unreachable"))))
    demo_text (Py.lit "total ad spend") tt
  = (Raise (Exn "ServiceUnavailable" (Py.lit "503 unreachable")), tt).
Proof.
  exact (proj1 (generation_failure_propagates
                  (demo_generate (Raise (Exn "ServiceUnavailable" (Py.lit "503 unreachable"))))
                  demo_text (Py.lit "total ad spend") tt _ tt
                  (or_introl eq_refl))).
Defined.

(** C10, on a response that has a marker only after the query. *)
Lemma fence_rule_only_for_leading_marker_witness :
  exists sql,
    question_to_sql
      (demo_generate (Ok (Py.lit "  SELECT 1" ++ Py.nl ++ Py.lit "```  ")))
      demo_text (Py.lit "one") tt = (Ok sql, tt)
    /\ sql = Py.lit "SELECT 1" ++ Py.nl ++ Py.lit "```".
Proof.
  destruct (fence_rule_only_for_leading_marker
              (demo_generate (Ok (Py.lit "  SELECT 1" ++ Py.nl ++ Py.lit "```  ")))
              demo_text (Py.lit "one") tt _ tt _ eq_refl eq_refl)
    as (sql & Hsql & _ & Hplain & _).
  exists sql. split; [exact Hsql|]. now apply Hplain.
Defined.

(** C2, counterexample: a Result Set of another shape, one numeric column,
    does get a chart; a Result Set of exactly two columns with a numeric
    second column gets none when both columns have one name; it gets none
    either, and plot raises, when the first column holds a byte string that
    is not UTF-8, or when a column name is not valid mathtext (then the canvas
    is left in the plotting area, neither drawn nor packed). *)
Lemma one_column_is_plotted_and_same_names_are_not :
  plot_if_possible (inl demo_total_frame) []
  = (Ok tt,
     shown {| ax_lines :=
                [ {| ln_x := Arr1 [VStr (Py.lit "total")]; ln_y := Arr1 [VInt 42];
                     ln_color := "red"; ln_marker := "o"; ln_linewidth := None |} ];
              ax_title := Py.lit "total";
              ax_xlabel := []; ax_ylabel := [];
              ax_xtick_rotation := None; ax_grid := None |})
  /\ (df_ncols demo_join_frame = 2%nat
      /\ (exists xs ys, df_data demo_join_frame = [xs; ys] /\ numeric_series ys = true)
      /\ plot_if_possible (inl demo_join_frame) [] = (Ok tt, shown new_axes))
  /\ (df_ncols demo_blob_frame = 2%nat
      /\ (exists xs ys, df_data demo_blob_frame = [xs; ys] /\ numeric_series ys = true)
      /\ Py.decode_utf8 [255] = None
      /\ exists e,
           exn_class e = "UnicodeDecodeError"%string
           /\ plot_if_possible (inl demo_blob_frame) [] = (Raise e, []))
  /\ (df_ncols demo_mathtext_frame = 2%nat
      /\ (exists xs ys, df_data demo_mathtext_frame = [xs; ys]
                        /\ numeric_series ys = true)
      /\ exists e canvas,
           plot_if_possible (inl demo_mathtext_frame) [] = (Raise e, [canvas])
           /\ cv_drawn canvas = false /\ cv_packed canvas = false).
Proof.
  split; [reflexivity|]. split; [|split].
  - repeat split. exists (Int64 [1%Z]), (Int64 [1%Z]). split; reflexivity.
  - split; [reflexivity|]. split; [eexists _, _; split; reflexivity|].
    split; [reflexivity|]. eexists. split; [|reflexivity]. reflexivity.
  - split; [reflexivity|]. split; [eexists _, _; split; reflexivity|].
    destruct (plot_two_columns_bad_label demo_mathtext_frame [] bad_mathtext
                (Py.lit "clicks") (Object [VStr (Py.lit "2024-01-01")]) (Int64 [5%Z])
                [Py.lit "2024-01-01"] eq_refl eq_refl eq_refl)
      as [e He]; [discriminate|reflexivity|reflexivity|now left|].
    exists e. eexists. split; [exact He|]. split; reflexivity.
Qed.

(** C2, on the frame of dates and sales. *)
Lemma plot_two_column_chart_witness :
  frame_ok demo_sales_frame = true
  /\ plot_if_possible (inl demo_sales_frame) []
     = (Ok tt,
        shown {| ax_lines :=
                   [ {| ln_x := Arr1 [VStr (Py.lit "2024-01-01"); VStr (Py.lit "2024-01-02")];
                        ln_y := Arr1 [VInt 10; VInt 25];
                        ln_color := "blue"; ln_marker := "o";
                        ln_linewidth := Some 2%Z |} ];
                 ax_title := Py.lit "ad_sales by date";
                 ax_xlabel := Py.lit "date"; ax_ylabel := Py.lit "ad_sales";
                 ax_xtick_rotation := Some 45%Z;
                 ax_grid := Some ("--"%string, 1 # 2) |}).
Proof.
  split; [reflexivity|].
  refine (proj1 (proj1 (plot_two_column_chart demo_sales_frame [] eq_refl)
                   (Py.lit "date") (Py.lit "ad_sales") _ _
                   [Py.lit "2024-01-01"; Py.lit "2024-01-02"]
                   eq_refl eq_refl _ eq_refl _ eq_refl)).
  - discriminate.
  - repeat constructor.
Defined.

(** C5, counterexample: three columns meet neither rule, the plotting area
    nevertheless holds a figure, its axes blank, where an empty Result Set
    leaves it empty; and one numeric column gets no chart, and plot raises,
    when its name is not valid mathtext. *)
Lemma unplottable_frame_still_gets_a_figure :
  (two_column_rule demo_wide_frame = false
   /\ one_column_rule demo_wide_frame = false
   /\ plot_if_possible (inl demo_wide_frame) []
      = (Ok tt,
         [ {| cv_figure := {| fig_figsize := (6, 4)%Z; fig_dpi := 100;
                              fig_axes := [new_axes] |};
              cv_drawn := true; cv_packed := true |} ]))
  /\ (one_column_rule demo_mathtext_total_frame = true
      /\ exists e canvas,
           plot_if_possible (inl demo_mathtext_total_frame) [] = (Raise e, [canvas])
           /\ cv_drawn canvas = false /\ cv_packed canvas = false).
Proof.
  split; [repeat split|]. split; [reflexivity|].
  destruct (plot_one_column_bad_label demo_mathtext_total_frame [] (Int64 [42%Z])
              eq_refl eq_refl eq_refl eq_refl) as (e & v & rest & _ & He).
  exists e. eexists. split; [exact He|]. split; reflexivity.
Qed.

(** C5, on the total. *)
Lemma plot_single_value_or_nothing_witness :
  frame_ok demo_total_frame = true
  /\ exists v rest,
       series_cells (Int64 [42%Z]) = v :: rest
       /\ (canvas_draw (figure_of (one_column_axes (Py.lit "total") v)) = Ok tt ->
           plot_if_possible (inl demo_total_frame) []
           = (Ok tt,
              shown {| ax_lines :=
                         [ {| ln_x := Arr1 [VStr (Py.lit "total")]; ln_y := Arr1 [v];
                              ln_color := "red"; ln_marker := "o";
                              ln_linewidth := None |} ];
                       ax_title := Py.lit "total";
                       ax_xlabel := []; ax_ylabel := [];
                       ax_xtick_rotation := None; ax_grid := None |})).
Proof.
  split; [reflexivity|].
  exact (proj1 (proj2 (plot_single_value_or_nothing demo_total_frame [] eq_refl))
           (Py.lit "total") (Int64 [42%Z]) eq_refl eq_refl eq_refl).
Defined.



(** C6, counterexample: the text table of a row of the Eligibility table
    holds the column header eligibility twice, once of them inside the header
    eligibility_datetime_utc; a header and a text with a tab inside are not
    in the text of their table, which shows the tab as a backslash and a t;
    not-a-number, whose string form is nan, is printed NaN; and the notice
    for an empty Result Set of 101 columns does not name the last one. *)
Lemma header_occurs_twice :
  (frame_ok demo_eligibility_frame = true
   /\ Py.lit "eligibility" ∈ df_columns demo_eligibility_frame
   /\ occurrences (Py.lit "eligibility") (to_string_noindex demo_eligibility_frame)
      = 2%nat)
  /\ (to_string_noindex demo_tab_frame
      = Py.lit "a\tb" ++ Py.nl ++ Py.lit "x\ty"
      /\ df_columns demo_tab_frame = [Py.lit "a" ++ [9] ++ Py.lit "b"]
      /\ ~ contains (Py.lit "a" ++ [9] ++ Py.lit "b") (to_string_noindex demo_tab_frame)
      /\ df_data demo_tab_frame = [Object [VStr (Py.lit "x" ++ [9] ++ Py.lit "y")]]
      /\ ~ contains (py_str (VStr (Py.lit "x" ++ [9] ++ Py.lit "y")))
                    (to_string_noindex demo_tab_frame))
  /\ (to_string_noindex demo_null_frame
      = Py.lit " ad_sales" ++ Py.nl ++ Py.lit "     10.0" ++ Py.nl
        ++ Py.lit "      NaN"
      /\ df_data demo_null_frame = [Float64 [float_of_int 10; nan]]
      /\ py_str (VFloat nan) = Py.lit "nan"
      /\ ~ contains (py_str (VFloat nan)) (to_string_noindex demo_null_frame))
  /\ (df_empty demo_many_columns_frame = true
      /\ Py.lit "c100" ∈ df_columns demo_many_columns_frame
      /\ ~ contains (Py.lit "c100") (to_string_noindex demo_many_columns_frame)).
Proof.
  assert (forall needle hay, occurrences needle hay = 0%nat -> ~ contains needle hay)
    as Habsent.
  { intros needle hay Hnone Hin. apply contains_occurrences in Hin. lia. }
  split; [|split; [|split]].
  - repeat split. apply list_elem_of_lookup. exists 2%nat. reflexivity.
  - split; [reflexivity|]. split; [reflexivity|].
    split; [apply Habsent; vm_compute; reflexivity|].
    split; [reflexivity|]. apply Habsent. vm_compute. reflexivity.
  - split; [reflexivity|]. split; [reflexivity|]. split; [reflexivity|].
    apply Habsent. vm_compute. reflexivity.
  - split; [reflexivity|]. split.
    + apply list_elem_of_lookup. exists 100%nat. vm_compute. reflexivity.
    + apply Habsent. vm_compute. reflexivity.
Qed.

(** C6, on the frame of dates and sales. *)
Lemma records_and_display_text_witness :
  frame_ok demo_sales_frame = true
  /\ length (to_dict_records demo_sales_frame) = 2%nat
  /\ (exists record,
        to_dict_records demo_sales_frame !! 1%nat = Some record
        /\ record !! Py.lit "ad_sales" = Some (VInt 25))
  /\ to_string_noindex demo_sales_frame
     = Py.lit "      date  ad_sales" ++ Py.nl
       ++ Py.lit "2024-01-01        10" ++ Py.nl
       ++ Py.lit "2024-01-02        25"
  /\ contains (Py.lit "ad_sales") (to_string_noindex demo_sales_frame)
  /\ contains (Py.lit "25") (to_string_noindex demo_sales_frame).
Proof.
  pose proof (records_and_display_text demo_sales_frame eq_refl)
    as ((Hlen & Hrecords) & Htext & _).
  destruct (Htext eq_refl) as (_ & _ & Hfields).
  destruct (Hfields 1%nat (Py.lit "ad_sales") (Int64 [10%Z; 25%Z]) eq_refl eq_refl)
    as (_ & _ & Hheader & Hcells).
  destruct (Hrecords 1%nat) as (record & Hrecord & _ & Hvalues); [simpl; lia|].
  split; [reflexivity|]. split; [exact Hlen|]. split.
  - exists record. split; [exact Hrecord|].
    apply (Hvalues 1%nat (Py.lit "ad_sales") (Int64 [10%Z; 25%Z]) (VInt 25));
      try reflexivity.
    intros [|[|j']] Hlt; simpl; (lia || discriminate).
  - split; [reflexivity|]. split; [exact Hheader|].
    exact (proj2 (Hcells 1%nat (Py.lit "25") eq_refl)).
Defined.

(** C7, on the store that holds the frame of dates and sales: after a plot,
    a toRecords and another plot the frame is still there, and toRecords
    gives its records. *)
Lemma presentation_is_pure_witness :
  represents demo_heap 0%nat demo_sales_frame
  /\ forall h' children',
       foldl (present 0%nat) (demo_heap, []) [Plot; ToRecords; Plot] = (h', children') ->
       represents h' 0%nat demo_sales_frame
       /\ obj_to_dict_records 0%nat h' = (Ok (to_dict_records demo_sales_frame), h').
Proof.
  assert (represents demo_heap 0%nat demo_sales_frame) as Hrep.
  { exists [1%nat; 2%nat]. split; [reflexivity|]. repeat constructor. }
  split; [exact Hrep|].
  intros h' children' Hrun.
  destruct (presentation_is_pure demo_heap 0%nat demo_sales_frame []
              [Plot; ToRecords; Plot] h' children' Hrep Hrun)
    as ((_ & Hrep') & _ & Hrecords & _).
  split; assumption.
Defined.

(** X2, on an entry of three spaces. *)
Lemma ask_question_blank_witness :
  demo_ask_question (Ok demo_select) (demo_db0, demo_gui (Py.lit "   "))
  = (Ok tt,
     (demo_db0,
      {| question_entry := Py.lit "   "; result_text := Py.lit "earlier";
         plot_frame := shown new_axes;
         warnings := [(Py.lit "Input Required", Py.lit "Please enter a question.")];
         slept := 0 |})).
Proof.
  exact (ask_question_blank (demo_generate (Ok demo_select)) demo_text
           demo_cursor demo_execute demo_fetchall demo_description
           demo_db0 (demo_gui (Py.lit "   ")) eq_refl).
Defined.




(** X7, on the example response between two marker lines. *)
Lemma synthesized_query_is_clean_witness :
  Py.startswith ticks (Py.lit "SELECT 1") = false
  /\ Py.strip (Py.lit "SELECT 1") = Py.lit "SELECT 1"
  /\ sql_of_response_text (Py.lit "SELECT 1") = Py.lit "SELECT 1".
Proof.
  exact (synthesized_query_is_clean (demo_generate (Ok fenced_select)) demo_text
           (Py.lit "one") tt (Py.lit "SELECT 1") tt eq_refl).
Defined.

(** X8, on the rows of the SELECT. *)
Lemma frame_rows_round_trip_witness :
  df_rows demo_sales_frame
  = [[VStr (Py.lit "2024-01-01"); VInt 10]; [VStr (Py.lit "2024-01-02"); VInt 25]].
Proof.
  refine (frame_rows_round_trip
            [[VStr (Py.lit "2024-01-01"); VInt 10]; [VStr (Py.lit "2024-01-02"); VInt 25]]
            [Py.lit "date"; Py.lit "ad_sales"] demo_sales_frame eq_refl _ _).
  - repeat constructor.
  - intros [|[|j]] Hj; [reflexivity|reflexivity|simpl in Hj; lia].
Defined.

(** X9, on the frame of two columns named item_id: one key. *)
Lemma record_keys_and_values_witness :
  dom (dict_of_zip (df_columns demo_join_frame) (df_row demo_join_frame 0))
  = list_to_set [Py.lit "item_id"; Py.lit "item_id"].
Proof.
  exact (proj1 (record_keys_and_values demo_join_frame 0 _ eq_refl
                  (to_dict_records_lookup demo_join_frame 0 (Nat.lt_0_succ 0)))).
Defined.

(** X11, on the frame of dates and sales. *)
Lemma plotted_lines_are_well_shaped_witness :
  exists o canvases,
    plot_if_possible (inl demo_sales_frame) [] = (o, canvases)
    /\ forall cv ax ln,
         cv ∈ canvases -> ax ∈ fig_axes (cv_figure cv) -> ln ∈ ax_lines ax ->
         exists xs ys,
           ln_x ln = Arr1 xs /\ ln_y ln = Arr1 ys
           /\ length xs = length ys
           /\ (length xs = df_nrows demo_sales_frame \/ length xs = 1%nat).
Proof.
  destruct (plotted_lines_are_well_shaped demo_sales_frame [] eq_refl)
    as (o & canvases & Hplot & Hlines & _).
  exists o, canvases. split; assumption.
Defined.

(** X12, on the SELECT. *)
Lemma execute_sql_results_are_well_formed_witness :
  frame_ok demo_sales_frame = true.
Proof.
  exact (execute_sql_results_are_well_formed demo_cursor demo_execute demo_fetchall
           demo_description demo_select demo_db0 (inl demo_sales_frame)
           {| db_ad_sales := db_ad_sales demo_db0;
              db_names := Some [Py.lit "date"; Py.lit "ad_sales"];
              db_rows := [[VStr (Py.lit "2024-01-01"); VInt 10];
                          [VStr (Py.lit "2024-01-02"); VInt 25]] |}
           eq_refl).
Defined.

(** X13, on a generator that is unreachable. *)
Lemma api_ask_generation_failure_witness :
  post_ask (demo_generate (Raise (Exn "ServiceUnavailable" (Py.lit "503 unreachable"))))
    demo_text demo_cursor demo_execute demo_fetchall demo_description
    {| question := Py.lit "total ad spend" |} demo_db0
  = ((500%Z, Plain (Py.lit "Internal Server Error")), demo_db0).
Proof.
  exact (proj2 (api_ask_generation_failure
                  (demo_generate (Raise (Exn "ServiceUnavailable" (Py.lit "503 unreachable"))))
                  demo_text demo_cursor demo_execute demo_fetchall demo_description
                  {| question := Py.lit "total ad spend" |} demo_db0 _ demo_db0 eq_refl)).
Defined.


(** X14, on a question answered with the SELECT: the second record maps
    ad_sales to 25. *)
Lemma api_ask_returns_the_fetched_values_witness :
  exists records w',
    api_ask (demo_generate (Ok demo_select)) demo_text demo_cursor demo_execute
      demo_fetchall demo_description {| question := Py.lit "sales by date" |} demo_db0
    = (Ok [ (Py.lit "question", PStr (Py.lit "sales by date"));
            (Py.lit "sql", PStr demo_select);
            (Py.lit "result", PRecords records) ], w')
    /\ length records = 2%nat
    /\ exists record,
         records !! 1%nat = Some record
         /\ record !! Py.lit "ad_sales" = Some (VInt 25).
Proof.
  destruct (api_ask_returns_the_fetched_values
              (demo_generate (Ok demo_select)) demo_text demo_cursor demo_execute
              demo_fetchall demo_description {| question := Py.lit "sales by date" |}
              demo_db0 demo_select demo_db0 tt demo_db0 _ _ _ _
              eq_refl eq_refl eq_refl eq_refl eq_refl)
    as (records & Hask & Hlen & Hcells).
  - apply NoDup_cons. split; [|apply NoDup_singleton].
    intros Hin. apply list_elem_of_singleton in Hin. discriminate Hin.
  - repeat constructor.
  - exists records. eexists. split; [exact Hask|]. split; [exact Hlen|].
    exact (Hcells 1%nat _ 1%nat (VInt 25) (Py.lit "ad_sales") eq_refl eq_refl eq_refl).
Defined.
